(** * Nubi.Agent repair scripts: a shallow embedding and its properties

    The repository is a set of one-shot Python scripts that patch
    TypeScript sources: whole-file [str.replace] substitutions, guarded
    line assignments, and one relocation of a brace-delimited block
    ([fix-templates.py]).  Each script is embedded as a function from the
    content of the file it opens to the content it leaves behind and the
    lines it prints.

    Text is a [string]: a sequence of 8-bit code points.  Python integers
    are unbounded, so the brace counter is a [Z].  A file is the content
    on disk; what a script reads from it is that content with its
    newlines translated, as text mode does. *)

From Stdlib Require Import ZArith Ascii String Lia.
From stdpp Require Import base option list strings.

Open Scope string_scope.
Open Scope list_scope.

(** ** Python string primitives *)

Module PyStr.

(** The newline and double-quote characters, which have no escape in a
    string literal here. *)
Definition nl : string := String "010"%char "".
Definition dq : string := String "034"%char "".

(** [str.isspace] on the code points below 256. *)
Definition is_space (c : ascii) : bool :=
  let n := nat_of_ascii c in
  (((9 <=? n) && (n <=? 13)) || ((28 <=? n) && (n <=? 32))
   || (n =? 133) || (n =? 160))%nat.

(** [s.startswith(p)]. *)
Definition startswith (p s : string) : bool := String.prefix p s.

(** [sub in s]. *)
Fixpoint contains (sub s : string) : bool :=
  startswith sub s ||
  match s with
  | "" => false
  | String _ s' => contains sub s'
  end.

(** [s.endswith(suf)]. *)
Fixpoint endswith (suf s : string) : bool :=
  String.eqb suf s ||
  match s with
  | "" => false
  | String _ s' => endswith suf s'
  end.

(** [s.rstrip()]: drop the trailing run of whitespace. *)
Fixpoint rstrip (s : string) : string :=
  match s with
  | "" => ""
  | String c s' =>
      match rstrip s' with
      | "" => if is_space c then "" else String c ""
      | r => String c r
      end
  end.

(** [s.count(sub)]: occurrences found left to right, never overlapping.
    [skip] is the number of characters still covered by the last match. *)
Fixpoint count_go (sub : string) (skip : nat) (s : string) : Z :=
  match s with
  | "" => 0
  | String _ s' =>
      match skip with
      | S k => count_go sub k s'
      | O =>
          if startswith sub s
          then 1 + count_go sub (String.length sub - 1) s'
          else count_go sub 0 s'
      end
  end%Z.

Definition count (sub s : string) : Z :=
  match sub with
  | "" => Z.of_nat (String.length s) + 1
  | _ => count_go sub 0 s
  end%Z.

(** [s.replace(old, new)]: every occurrence, left to right, never
    overlapping. *)
Fixpoint replace_go (old new : string) (skip : nat) (s : string) : string :=
  match s with
  | "" => ""
  | String c s' =>
      match skip with
      | S k => replace_go old new k s'
      | O =>
          if startswith old s
          then new +:+ replace_go old new (String.length old - 1) s'
          else String c (replace_go old new 0 s')
      end
  end.

(** With an empty [old] Python puts [new] before every character and at
    the end. *)
Fixpoint intersperse_new (new s : string) : string :=
  match s with
  | "" => new
  | String c s' => new +:+ String c (intersperse_new new s')
  end.

Definition replace (old new s : string) : string :=
  match old with
  | "" => intersperse_new new s
  | _ => replace_go old new 0 s
  end.

(** Text mode on reading ([open(path, 'r')], universal newlines): a
    carriage return followed by a newline, and a carriage return alone,
    are read as one newline.  [after_cr] tells that the character before
    was a carriage return. *)
Fixpoint translate_newlines (after_cr : bool) (s : string) : string :=
  match s with
  | "" => ""
  | String c s' =>
      if Ascii.eqb c "013" then String "010" (translate_newlines true s')
      else if Ascii.eqb c "010" then
        if after_cr then translate_newlines false s'
        else String c (translate_newlines false s')
      else String c (translate_newlines false s')
  end.

(** [f.read()] on a file opened with [open(path, 'r')]. *)
Definition read (file : string) : string := translate_newlines false file.

(** The lines of a text: split after every newline, keeping it. *)
Fixpoint split_lines (s : string) : list string :=
  match s with
  | "" => []
  | String c s' =>
      if Ascii.eqb c "010"
      then String c "" :: split_lines s'
      else match split_lines s' with
           | [] => [String c ""]
           | l :: ls => String c l :: ls
           end
  end.

(** [f.readlines()] on a file opened with [open(path, 'r')]. *)
Definition readlines (file : string) : list string :=
  split_lines (read file).

(** [f.writelines(ls)]: the lines one after the other, nothing added.
    The scripts run where a newline is written as it is (their paths are
    absolute Unix paths), so that text mode changes nothing on writing. *)
Fixpoint writelines (ls : list string) : string :=
  match ls with
  | [] => ""
  | l :: ls' => l +:+ writelines ls'
  end.

(** Python truth value of an index that may be [None]: [None] and [0]
    are both false. *)
Definition truthy (o : option nat) : bool :=
  match o with
  | Some (S _) => true
  | _ => false
  end.

(** [for i, line in enumerate(lines): if needle in line: idx = i; break]. *)
Fixpoint find_line (needle : string) (lines : list string) : option nat :=
  match lines with
  | [] => None
  | line :: rest =>
      if contains needle line then Some 0 else S <$> find_line needle rest
  end.

End PyStr.

Import PyStr.

(** The loop that keeps some of the lines that followed the export, which
    two scripts share up to the test they apply:
    [for line in ls: if pred(line): kept.append(line)]. *)
Fixpoint collect (pred : string -> bool) (ls : list string) : list string :=
  match ls with
  | [] => []
  | line :: rest =>
      if pred line then line :: collect pred rest else collect pred rest
  end.

(** ** What a script leaves behind *)

(** A script either rewrites the file it opened or never opens it for
    writing; in both cases it may print. *)
Inductive outcome : Type :=
  | Written (out : list string) (printed : list string)
  | Untouched (printed : list string).

Definition printed_of (o : outcome) : list string :=
  match o with
  | Written _ p => p
  | Untouched p => p
  end.

(** The file after a line-based script has run on content [file]. *)
Definition file_after (file : string) (o : outcome) : string :=
  match o with
  | Written out _ => writelines out
  | Untouched _ => file
  end.

(** ** fix-templates.py *)

Module FixTemplates.

Definition anchor : string := "  templates: {".
Definition inner_anchor : string := "templates: {".
Definition export_marker : string := "export default nubiCharacter;".

(** The three lines appended after the kept prefix. *)
Definition header : list string :=
  [ nl;
    "// Export templates for use in other modules" +:+ nl;
    "export const nubiTemplates = {" +:+ nl ].

(** Lines 46-49: the counter after one line of the block. *)
Definition after_line (brace_count : Z) (line : string) : Z :=
  let c1 := if contains "{" line
            then (brace_count + count "{" line)%Z else brace_count in
  if contains "}" line then (c1 - count "}" line)%Z else c1.

(** Lines 39-53: the loop over [lines[templates_start:]].  The result is
    the lines appended to [lines_to_keep] and whether the loop left
    through [break]. *)
Fixpoint scan_loop (in_templates : bool) (brace_count : Z)
    (ls : list string) : list string * bool :=
  match ls with
  | [] => ([], false)
  | line :: rest =>
      if contains inner_anchor line then scan_loop true 1 rest
      else if in_templates then
        let bc := after_line brace_count line in
        if (bc =? 0)%Z then ([line], true)
        else let r := scan_loop true bc rest in (line :: r.1, r.2)
      else scan_loop in_templates brace_count rest
  end.

(** Lines 56-57: terminate the last kept line.  [lines_to_keep] is never
    empty there (it holds the header); on an empty list Python would
    raise, which the model renders as no change. *)
Definition close_file (lines_to_keep : list string) : list string :=
  match last lines_to_keep with
  | Some l =>
      if endswith (";" +:+ nl) l then lines_to_keep
      else <[ (length lines_to_keep - 1)%nat := rstrip l +:+ ";" +:+ nl ]>
             lines_to_keep
  | None => lines_to_keep
  end.

(** Line 61: the lines after the export that are kept as they are. *)
Definition tail_pred (line : string) : bool :=
  contains "delete" line || contains "//" line.

(** Lines 60-62: [for line in ...: if <pred>: lines_to_keep.append(line)]. *)
Definition collect_tail (ls : list string) : list string :=
  collect tail_pred ls.

(** Lines 29-62 once both indexes are known. *)
Definition relocate (lines : list string) (export_line templates_start : nat)
    : list string :=
  let lines_to_keep := take (S export_line) lines ++ header in
  let block := (scan_loop false 0 (drop templates_start lines)).1 in
  close_file (lines_to_keep ++ block)
    ++ collect_tail (drop (S export_line) lines).

(** The whole script on the lines it read. *)
Definition fix_templates (lines : list string) : outcome :=
  let templates_start := find_line anchor lines in
  if truthy templates_start then
    let export_line := find_line export_marker lines in
    if truthy export_line
       && (default 0 export_line <? default 0 templates_start)%nat
    then Written
           (relocate lines (default 0 export_line) (default 0 templates_start))
           ["Fixed templates structure"]
    else Untouched ["Export/templates order seems OK"]
  else Untouched ["Could not find templates definition"].

(** The script on the content of the file. *)
Definition run (file : string) : string * list string :=
  let o := fix_templates (readlines file) in
  (file_after file o, printed_of o).

(** *** Notions used to state what the loop does *)

(** The values the counter takes, one for each line the loop counts.  A
    line holding [inner_anchor] is not counted and sets the counter back
    to 1. *)
Fixpoint depths (brace_count : Z) (ls : list string) : list Z :=
  match ls with
  | [] => []
  | line :: rest =>
      if contains inner_anchor line then depths 1 rest
      else let bc := after_line brace_count line in bc :: depths bc rest
  end.

(** The lines the loop can append: those without [inner_anchor]. *)
Definition non_anchor (line : string) : bool :=
  negb (contains inner_anchor line).

(** The relocated declaration as written: the header, the block, and the
    terminator put on the last of these lines. *)
Definition declaration (lines : list string) (templates_start : nat)
    : list string :=
  close_file (header ++ (scan_loop false 0 (drop templates_start lines)).1).

End FixTemplates.

(** ** The behaviour the specification describes, for comparison *)

Module Spec.

(** Section 4.1 of the specification: depth goes up at every open
    delimiter and down at every close delimiter, in textual order, and
    the block ends at the close delimiter that brings it to 0.  The
    offset of that delimiter in [s], from depth [depth]. *)
Fixpoint char_scan (depth : Z) (s : string) : option nat :=
  match s with
  | "" => None
  | String c s' =>
      if Ascii.eqb c "{" then S <$> char_scan (depth + 1) s'
      else if Ascii.eqb c "}" then
        if (depth - 1 =? 0)%Z then Some 0%nat
        else S <$> char_scan (depth - 1) s'
      else S <$> char_scan depth s'
  end.

(** The block [blk] taken from the lines [rest] that follow the anchor
    ends at the line of that delimiter. *)
Definition ends_at_closing_delimiter (rest blk : list string) : Prop :=
  exists off : nat,
    char_scan 1 (writelines rest) = Some off /\
    (String.length (writelines (removelast blk)) <= off
     < String.length (writelines blk))%nat.

(** Section 4.2 of the specification: a separator that ends the
    extracted text is replaced by a terminator. *)
Fixpoint replace_last_separator (s : string) : string :=
  match s with
  | "" => ""
  | String c "" => if Ascii.eqb c "," then ";" else s
  | String c s' => String c (replace_last_separator s')
  end.


End Spec.

(** ** fix-nubi-final.py *)

Module FixNubiFinal.

Definition export_marker : string := "export default nubiCharacter;".

Definition import_line : string :=
  "import { nubiTemplates } from " +:+ dq +:+ "./nubi-templates" +:+ dq
    +:+ ";" +:+ nl.

Definition footer : list string :=
  [ "// Export templates for use in other modules" +:+ nl;
    "export { nubiTemplates } from " +:+ dq +:+ "./nubi-templates" +:+ dq
      +:+ ";" +:+ nl;
    nl ].

(** [l.insert(i, x)] for an index that is not negative. *)
Definition py_insert (i : nat) (x : string) (l : list string) : list string :=
  take i l ++ x :: drop i l.

(** Line 30. *)
Definition tail_pred (line : string) : bool :=
  contains "delete" line && contains "nubiCharacter" line.

(** Lines 14-32 once the export line is known. *)
Definition clean_up (lines : list string) (export_line : nat) : list string :=
  let clean_lines := take (S export_line) lines ++ [nl] in
  let clean_lines := py_insert 1 import_line clean_lines in
  (clean_lines ++ footer) ++ collect tail_pred (drop (S export_line) lines).

(** The whole script on the lines it read. *)
Definition fix_nubi_final (lines : list string) : outcome :=
  let export_line := find_line export_marker lines in
  if truthy export_line
  then Written (clean_up lines (default 0 export_line))
               ["Cleaned up nubi-character.ts"]
  else Untouched [].

Definition run (file : string) : string * list string :=
  let o := fix_nubi_final (readlines file) in
  (file_after file o, printed_of o).

End FixNubiFinal.

(** ** fix-raid-system.py *)

Module FixRaidSystem.

(** Strip [p] from the front of [s], when it is there. *)
Fixpoint strip_prefix (p s : string) : option string :=
  match p with
  | "" => Some s
  | String a p' =>
      match s with
      | "" => None
      | String b s' => if Ascii.eqb a b then strip_prefix p' s' else None
      end
  end.

(** [\s*]: the longest run of whitespace is the only one after which
    the rest of either pattern can match, since what follows it starts
    with a character that is not whitespace. *)
Fixpoint skip_spaces (s : string) : string :=
  match s with
  | String c s' => if is_space c then skip_spaces s' else s
  | "" => ""
  end.

(** [,\s*(true|false)\)] at the front of [s]: what is left after it. *)
Definition bool_tail (s : string) : option string :=
  s1 ← strip_prefix "," s;
  let s2 := skip_spaces s1 in
  match strip_prefix "true" s2 with
  | Some s3 => strip_prefix ")" s3
  | None => s3 ← strip_prefix "false" s2; strip_prefix ")" s3
  end.

(** [(.*?)] followed by [bool_tail]: the shortest group, free of
    newlines, after which the tail matches.  The group and what is left
    after the whole match. *)
Fixpoint lazy_group (s : string) : option (string * string) :=
  match bool_tail s with
  | Some rest => Some ("", rest)
  | None =>
      match s with
      | "" => None
      | String c s' =>
          if Ascii.eqb c "010" then None
          else prod_map (String c) id <$> lazy_group s'
      end
  end.

(** The pattern [\.createMemory\((.*?),\s*(true|false)\)] at the front
    of [s]. *)
Definition match_create_memory (s : string) : option (string * string) :=
  s1 ← strip_prefix ".createMemory(" s; lazy_group s1.

(** [replace_bool_content]. *)
Definition replace_bool_content (group1 : string) : string :=
  ".createMemory(" +:+ group1 +:+ ", { text: " +:+ dq
    +:+ "Raid action performed" +:+ dq +:+ " })".

(** [re.sub(pattern, replace_bool_content, content)]: matches are taken
    left to right and never overlap; none is empty. *)
Fixpoint sub_create_memory (skip : nat) (s : string) : string :=
  match s with
  | "" => ""
  | String c s' =>
      match skip with
      | S k => sub_create_memory k s'
      | O =>
          match match_create_memory s with
          | Some (g1, rest) =>
              replace_bool_content g1
                +:+ sub_create_memory
                      (String.length s - String.length rest - 1) s'
          | None => String c (sub_create_memory 0 s')
          end
      end
  end.

(** The substitutions of the script, in the order it applies them. *)
Definition patch (content : string) : string :=
  let content :=
    replace "quote: number;"
            ("quote: number;" +:+ nl +:+ "        view: number;") content in
  let content :=
    replace ("            quote: 3," +:+ nl +:+ "        },")
            ("            quote: 3," +:+ nl +:+ "            view: 1," +:+ nl
               +:+ "        },") content in
  let content := replace ".raw(" ".rpc(" content in
  let content := sub_create_memory 0 content in
  let content :=
    replace ".userId" (".user?.id || " +:+ dq +:+ dq) content in
  let content :=
    replace (dq +:+ "user" +:+ dq +:+ ":") (dq +:+ "userId" +:+ dq +:+ ":")
            content in
  let content :=
    replace "const text = message.content?.text;"
            ("const text = message.content?.text || " +:+ dq +:+ dq +:+ ";")
            content in
  replace "if (text.toLowerCase()" "if (text && text.toLowerCase()" content.

(** The script: the file after it and what it printed. *)
Definition run (file : string) : string * list string :=
  (patch (read file), ["Fixed nubi-raid-system.ts compilation errors"]).

End FixRaidSystem.

(** ** comprehensive-fix.py *)

Module ComprehensiveFix.

Import FixRaidSystem.

(** *** The nubi-raid-system.ts section (lines 5-40) *)

(** [[^,]+]: the longest run of characters other than a comma; a shorter
    one cannot be followed by the comma the pattern asks for next. *)
Fixpoint non_commas (s : string) : string * string :=
  match s with
  | "" => ("", "")
  | String c s' =>
      if Ascii.eqb c "," then ("", s)
      else let r := non_commas s' in (String c r.1, r.2)
  end.

Definition raid_text : string :=
  "{{ text: " +:+ dq +:+ "Raid action performed" +:+ dq +:+ " }}".

(** The pattern of line 34 at the front of [s]: group 1 and what is left
    after the match. *)
Definition match_content (s : string) : option (string * string) :=
  s1 ← strip_prefix ".createMemory(" s;
  let r := non_commas s1 in
  match r.1 with
  | "" => None
  | g1 =>
      s2 ← strip_prefix "," r.2;
      s3 ← strip_prefix raid_text (skip_spaces s2);
      s4 ← strip_prefix ")" s3;
      Some (g1, s4)
  end.

(** The replacement template of line 35. *)
Definition as_content (group1 : string) : string :=
  ".createMemory(" +:+ group1 +:+ ", { text: " +:+ dq
    +:+ "Raid action performed" +:+ dq +:+ " } as Content)".

(** [re.sub] of lines 33-37. *)
Fixpoint sub_content (skip : nat) (s : string) : string :=
  match s with
  | "" => ""
  | String c s' =>
      match skip with
      | S k => sub_content k s'
      | O =>
          match match_content s with
          | Some (g1, rest) =>
              as_content g1
                +:+ sub_content (String.length s - String.length rest - 1) s'
          | None => String c (sub_content 0 s')
          end
      end
  end.

Definition share_quote : string :=
  "            share: 1," +:+ nl +:+ "            quote: 3," +:+ nl.

Definition patch_raid (content : string) : string :=
  let content :=
    replace (share_quote +:+ "        },")
            (share_quote +:+ "            view: 1," +:+ nl +:+ "        },")
            content in
  let content :=
    replace "if (text.toLowerCase()" "if (text && text.toLowerCase()"
            content in
  let content :=
    replace (".user?.id || " +:+ dq +:+ dq) (".userId || " +:+ dq +:+ dq)
            content in
  let content :=
    replace (dq +:+ "userId" +:+ dq +:+ ":") (dq +:+ "user" +:+ dq +:+ ":")
            content in
  sub_content 0 content.

(** The section: the file after it and what it printed. *)
Definition run_raid (file : string) : string * list string :=
  (patch_raid (read file), ["Fixing nubi-raid-system.ts..."]).

(** *** The error-handler.ts section (lines 138-153) *)

Definition line34 : string :=
  "      logger.debug(`[${serviceName}] Executing ${methodName} - ${JSON.stringify({ correlationId, context })}`);"
    +:+ nl.
Definition line37 : string :=
  "      logger.debug(`[${serviceName}] ${methodName} completed in ${duration}ms - ${JSON.stringify({ correlationId })}`);"
    +:+ nl.
Definition line107 : string :=
  "    logger.error(JSON.stringify({ error: serviceError.message, stack: serviceError.error?.stack, context, correlationId }));"
    +:+ nl.

(** [lines[i] = x]: Python raises [IndexError] out of range, [None]
    here. *)
Definition setitem (i : nat) (x : string) (lines : list string)
    : option (list string) :=
  if (i <? length lines)%nat then Some (<[i := x]> lines) else None.

(** [if len(lines) > bound: lines[i] = x]. *)
Definition guarded_assign (bound i : nat) (x : string) (lines : list string)
    : option (list string) :=
  if (bound <? length lines)%nat then setitem i x lines else Some lines.

(** The guard and index the script uses for the line numbered [n]
    (counting from 1): [if len(lines) > n: lines[n - 1] = x]. *)
Definition replace_line (n : nat) (x : string) (lines : list string)
    : option (list string) :=
  guarded_assign n (n - 1) x lines.

(** Lines 145-150. *)
Definition patch_error_handler (lines : list string) : option (list string) :=
  lines ← guarded_assign 34 33 line34 lines;
  lines ← guarded_assign 37 36 line37 lines;
  guarded_assign 107 106 line107 lines.

End ComprehensiveFix.

(** ** Sample buffers *)

Module Samples.

(** The anchor follows the export and its block is never closed. *)
Definition unbalanced : list string :=
  [ "import x;" +:+ nl;
    "export default nubiCharacter;" +:+ nl;
    "  templates: {" +:+ nl;
    "    greeting: {" +:+ nl;
    "      text: 1" +:+ nl;
    "    }," +:+ nl ].

(** The lines after an anchor: the block is closed by the first
    character of the second line, which opens another block. *)
Definition close_then_open : list string :=
  [ "  a: 1" +:+ nl;
    "}, other: {" +:+ nl;
    "  b: 2" +:+ nl;
    "};" +:+ nl ].


(** A buffer whose block is all that follows the export. *)
Definition block_last : list string :=
  [ "import x;" +:+ nl;
    "export default nubiCharacter;" +:+ nl;
    "  templates: {" +:+ nl;
    "    a: 1," +:+ nl;
    "  };" +:+ nl ].

(** A buffer with lines of every kind after the export. *)
Definition mixed : list string :=
  [ "import x;" +:+ nl;
    "export default nubiCharacter;" +:+ nl;
    "const stray = 0;" +:+ nl;
    "  templates: {" +:+ nl;
    "    a: 1, // first" +:+ nl;
    "  }," +:+ nl;
    "const lost = 2;" +:+ nl;
    "delete nubiCharacter.templates; // done" +:+ nl ].

(** A file without anchor or export. *)
Definition plain_file : string :=
  "const a = 1;" +:+ nl +:+ "const b = 2;" +:+ nl.

End Samples.

(** ** More string primitives *)

Module PyStrMore.

(** [s.lstrip()]: drop the leading run of whitespace. *)
Fixpoint lstrip (s : string) : string :=
  match s with
  | "" => ""
  | String c s' => if is_space c then lstrip s' else s
  end.

(** [s.strip()]. *)
Definition strip (s : string) : string := lstrip (rstrip s).

(** [s[:n]] and [s[n:]] for an index that is not negative. *)
Fixpoint str_take (n : nat) (s : string) : string :=
  match n, s with
  | S k, String c s' => String c (str_take k s')
  | _, _ => ""
  end.

Fixpoint str_drop (n : nat) (s : string) : string :=
  match n, s with
  | S k, String _ s' => str_drop k s'
  | _, _ => s
  end.

(** [s.rfind(sub)]: the highest index at which [sub] starts, [None] for
    Python's [-1]. *)
Fixpoint rfind (sub s : string) : option nat :=
  match s with
  | "" => if startswith sub "" then Some 0%nat else None
  | String _ s' =>
      match rfind sub s' with
      | Some i => Some (S i)
      | None => if startswith sub s then Some 0%nat else None
      end
  end.

(** The character [c] occurs in [s]. *)
Fixpoint char_in (c : ascii) (s : string) : bool :=
  match s with
  | "" => false
  | String x s' => Ascii.eqb c x || char_in c s'
  end.

(** A line as [readlines] returns it: not empty, and without a newline
    before its last character. *)
Fixpoint is_line (l : string) : bool :=
  match l with
  | "" => false
  | String c "" => true
  | String c l' => negb (Ascii.eqb c "010") && is_line l'
  end.

(** A list of lines as [readlines] returns it: every line but the last
    ends with a newline. *)
Fixpoint lines_ok (ls : list string) : bool :=
  match ls with
  | [] => true
  | [l] => is_line l
  | l :: ls' => is_line l && endswith nl l && lines_ok ls'
  end.

End PyStrMore.

Import PyStrMore.

(** ** fix-remaining-issues.py: the repository files (lines 71-88) *)

Module FixRemainingIssues.

(** What the loop does to the content of each file that exists. *)
Definition patch_repository (content : string) : string :=
  let content := replace ".where(" ".where(" content in
  replace "+ 1" "+ 1 as any" content.

End FixRemainingIssues.

(** ** comprehensive-fix.py: socket-io-analytics-enhanced.ts (lines 88-109) *)

Module Analytics.

Definition port_setting : string :=
  "runtime.getSetting(" +:+ dq +:+ "SOCKET_IO_PORT" +:+ dq +:+ ") || "
    +:+ dq +:+ "3001" +:+ dq.

Definition class_line : string :=
  "export class SocketIOAnalyticsService extends Service {".

(** Lines 95-98. *)
Definition fix_port (content : string) : string :=
  replace port_setting ("parseInt(" +:+ port_setting +:+ ")") content.

(** Lines 101-106. *)
Definition add_io (content : string) : string :=
  if negb (contains "private io:" content)
  then replace class_line
               (class_line +:+ nl +:+ "    private io: any = null;") content
  else content.

Definition patch_analytics (content : string) : string :=
  add_io (fix_port content).

End Analytics.

(** ** fix-event-emitter.py: socket-io-analytics-enhanced.ts (lines 61-97) *)

Module FixEventEmitter.

Definition get_setting : string :=
  ".getSetting(" +:+ dq +:+ "SOCKET_IO_PORT" +:+ dq +:+ ")".

(** Lines 68-72.  The pattern has no operator and its one group holds a
    literal, so [re.sub] is the substitution of one text by another. *)
Definition fix_port (content : string) : string :=
  replace get_setting (get_setting +:+ " || " +:+ dq +:+ "3001" +:+ dq)
          content.

Definition stop_method : string :=
  nl +:+
  "    async stop(): Promise<void> {" +:+ nl +:+
  "        if (this.io) {" +:+ nl +:+
  "            await new Promise<void>((resolve) => {" +:+ nl +:+
  "                this.io?.close(() => {" +:+ nl +:+
  "                    logger.info(" +:+ dq
    +:+ "[SocketIOAnalytics] Server stopped" +:+ dq +:+ ");" +:+ nl +:+
  "                    resolve();" +:+ nl +:+
  "                });" +:+ nl +:+
  "            });" +:+ nl +:+
  "            this.io = null;" +:+ nl +:+
  "        }" +:+ nl +:+
  "    }" +:+ nl.

(** Lines 75-93. *)
Definition add_stop (content : string) : string :=
  if negb (contains "async stop()" content) then
    match rfind "}" content with
    | Some (S i) =>
        str_take (S i) content +:+ stop_method +:+ str_drop (S i) content
    | _ => content
    end
  else content.

Definition patch_analytics (content : string) : string :=
  add_stop (fix_port content).

End FixEventEmitter.

(** ** fix-error-handler-final.py *)

Module FixErrorHandlerFinal.

Definition method_header : string :=
  "private static logError(error: ServiceError): void {".

(** The nine lines appended after the header (lines 16-24). *)
Definition method_body : list string :=
  [ "    logger.error(" +:+ nl;
    "      `[${error.service}] ${error.method} failed: ${error.error.message}`,"
      +:+ nl;
    "      JSON.stringify({" +:+ nl;
    "        stack: error.error.stack," +:+ nl;
    "        context: error.context," +:+ nl;
    "        correlationId: error.correlationId," +:+ nl;
    "      })" +:+ nl;
    "    );" +:+ nl;
    "  }" +:+ nl ].

(** The three flags of the loop. *)
Record flags : Type := {
  skip_lines : bool;
  in_log_error : bool;
  log_error_fixed : bool
}.

Definition initial : flags :=
  {| skip_lines := false; in_log_error := false; log_error_fixed := false |}.


(** Lines 11-37: the lines appended to [fixed_lines] from the flags [st]
    on. *)
Fixpoint loop (st : flags) (ls : list string) : list string :=
  match ls with
  | [] => []
  | line :: rest =>
      if contains method_header line then
        (line :: method_body)
          ++ loop {| skip_lines := true; in_log_error := true;
                     log_error_fixed := true |} rest
      else if skip_lines st && in_log_error st then
        if String.eqb (strip line) "}" && negb (log_error_fixed st) then
          loop {| skip_lines := false; in_log_error := false;
                  log_error_fixed := log_error_fixed st |} rest
        else if String.eqb (strip line) "" && log_error_fixed st then
          line :: loop {| skip_lines := false; in_log_error := false;
                          log_error_fixed := log_error_fixed st |} rest
        else loop st rest
      else line :: loop st rest
  end.

(** The whole script on the lines it read: it always writes. *)
Definition fix_error_handler (lines : list string) : outcome :=
  Written (loop initial lines) ["Fixed error-handler.ts"].

End FixErrorHandlerFinal.

(** ** fix-pattern-order.py *)

Module FixPatternOrder.

Definition key : string := "system\s*prompt".

Definition broad : string :=
  "\b(system\s*prompt|initial\s*instructions|rules|instructions)\b".

Definition specific : string :=
  "\b(show\s+system\s+prompt|reveal\s+initial\s+instructions|show\s+rules|reveal\s+instructions)\b".

(** Lines 6-14: the first line that holds [key] is rewritten and the
    loop stops. *)
Fixpoint narrow_first (lines : list string) : list string :=
  match lines with
  | [] => []
  | line :: rest =>
      if contains key line then replace broad specific line :: rest
      else line :: narrow_first rest
  end.

(** The whole script on the lines it read: it always writes. *)
Definition fix_pattern_order (lines : list string) : outcome :=
  Written (narrow_first lines) ["Fixed pattern order and specificity"].

End FixPatternOrder.

(** ** More sample buffers *)

Module MoreSamples.





(** A buffer in which fix-templates.py finds its block, with a comment in
    the block. *)
Definition commented : list string :=
  [ "import x;" +:+ nl;
    "export default nubiCharacter;" +:+ nl;
    "  templates: {" +:+ nl;
    "    a: { b: 1 }, // first" +:+ nl;
    "  }," +:+ nl;
    "delete nubiCharacter.templates;" +:+ nl ].

(** The content of a file with the lines of [Samples.unbalanced], and of
    one with the lines of [Samples.mixed]. *)
Definition unbalanced_file : string := writelines Samples.unbalanced.
Definition mixed_file : string := writelines Samples.mixed.

(** A file whose line ends with a carriage return and a newline. *)
Definition crlf_file : string :=
  "const x = 1;" +:+ String "013" "" +:+ nl.

End MoreSamples.

(** * Properties *)

(** ** Facts about the string primitives *)

Module PyStrFacts.

Lemma append_cons (c : ascii) (s1 s2 : string) :
  String c s1 +:+ s2 = String c (s1 +:+ s2).
Proof. reflexivity. Qed.

Lemma append_assoc (s1 s2 s3 : string) :
  (s1 +:+ s2) +:+ s3 = s1 +:+ (s2 +:+ s3).
Proof.
  induction s1 as [|c s1 IH]; [done|]. rewrite !append_cons. by f_equal.
Qed.

Lemma append_length (s1 s2 : string) :
  String.length (s1 +:+ s2) = (String.length s1 + String.length s2)%nat.
Proof.
  induction s1 as [|c s1 IH]; [done|]. rewrite append_cons. simpl.
  by f_equal.
Qed.

Lemma writelines_app (l1 l2 : list string) :
  writelines (l1 ++ l2) = writelines l1 +:+ writelines l2.
Proof.
  induction l1 as [|l l1 IH]; simpl; [done|].
  rewrite IH. symmetry. apply append_assoc.
Qed.

(** The lines of a text put end to end are the text. *)
Lemma writelines_split_lines (s : string) : writelines (split_lines s) = s.
Proof.
  induction s as [|c s IH]; simpl; [done|].
  destruct (Ascii.eqb c "010"); simpl.
  - by rewrite IH.
  - destruct (split_lines s) as [|l ls]; simpl in *; rewrite <- IH; [done|].
    by rewrite append_cons.
Qed.


Lemma startswith_tail (a b : ascii) (p s : string) :
  startswith (String a p) (String b s) = true -> startswith p s = true.
Proof.
  unfold startswith. simpl. by destruct (ascii_dec a b).
Qed.

Lemma contains_unfold (sub s : string) :
  contains sub s =
  startswith sub s ||
  match s with "" => false | String _ s' => contains sub s' end.
Proof. by destruct s. Qed.

Lemma startswith_contains (p s : string) :
  startswith p s = true -> contains p s = true.
Proof. intros H. rewrite contains_unfold, H. done. Qed.

(** A text that holds a pattern holds the pattern less its first
    character. *)
Lemma contains_tail (a : ascii) (p s : string) :
  contains (String a p) s = true -> contains p s = true.
Proof.
  induction s as [|b s IH]; rewrite contains_unfold.
  - by rewrite orb_false_r.
  - intros [H|H]%orb_true_iff; rewrite (contains_unfold p);
      apply orb_true_iff; right.
    + by apply startswith_contains, (startswith_tail a b).
    + by apply IH.
Qed.

(** What [find_line] returns is the first line that holds the needle. *)
Lemma find_line_Some (needle : string) (lines : list string) (i : nat) :
  find_line needle lines = Some i ->
  exists line,
    lines !! i = Some line /\ contains needle line = true /\
    forall l, l ∈ take i lines -> contains needle l = false.
Proof.
  revert i. induction lines as [|x lines IH]; intros i; simpl; [done|].
  destruct (contains needle x) eqn:Hx.
  - intros [= <-]. exists x. split_and!; [done..|].
    intros l Hl. simpl in Hl. by apply elem_of_nil in Hl.
  - destruct (find_line needle lines) as [j|] eqn:Hj; simpl; [|done].
    intros [= <-]. destruct (IH j eq_refl) as (line & H1 & H2 & H3).
    exists line. split_and!; [done..|].
    intros l [->|Hl]%elem_of_cons; auto.
Qed.

Lemma find_line_drop (needle : string) (lines : list string) (i : nat) :
  find_line needle lines = Some i ->
  exists line,
    drop i lines = line :: drop (S i) lines /\ contains needle line = true.
Proof.
  intros (line & H1 & H2 & _)%find_line_Some.
  exists line. split; [|done]. by apply drop_S.
Qed.

(** A pattern that occurs nowhere is counted 0 times. *)
Lemma count_absent (sub s : string) :
  contains sub s = false -> count sub s = 0%Z.
Proof.
  destruct sub as [|a sub]; [by destruct s|].
  unfold count. induction s as [|c s IH]; [done|].
  rewrite contains_unfold. intros [H1 H2]%orb_false_iff.
  cbn [count_go]. rewrite H1. by apply IH.
Qed.

(** [replace_go] leaves alone a text in which the pattern starts
    nowhere. *)
Lemma replace_go_absent (old new s : string) :
  contains old s = false -> replace_go old new 0 s = s.
Proof.
  induction s as [|c s IH]; [done|].
  rewrite contains_unfold. intros [H1 H2]%orb_false_iff.
  cbn [replace_go]. rewrite H1. by rewrite IH.
Qed.

(** A substitution whose pattern does not occur changes nothing. *)
Lemma replace_absent (old new s : string) :
  contains old s = false -> replace old new s = s.
Proof.
  destruct old as [|a old]; [by destruct s|].
  intros H. unfold replace. by apply replace_go_absent.
Qed.

End PyStrFacts.

Import PyStrFacts.

(** ** fix-templates.py: the scan *)

Module TemplatesFacts.

Import FixTemplates.

Lemma anchor_inner (line : string) :
  contains anchor line = true -> contains inner_anchor line = true.
Proof. unfold anchor. intros H. by do 2 apply contains_tail in H. Qed.

(** The loop starts counting at the line the search found. *)
Lemma scan_from_anchor (lines : list string) (ts : nat) :
  find_line anchor lines = Some ts ->
  scan_loop false 0 (drop ts lines) = scan_loop true 1 (drop (S ts) lines).
Proof.
  intros (line & -> & H%anchor_inner)%find_line_drop.
  simpl. by rewrite H.
Qed.

(** With both indexes found and in order the script rewrites the file. *)
Lemma fix_templates_found (lines : list string) (e ts : nat) :
  find_line anchor lines = Some ts ->
  find_line export_marker lines = Some e ->
  (0 < e < ts)%nat ->
  fix_templates lines
  = Written (relocate lines e ts) ["Fixed templates structure"].
Proof.
  intros Hts He [H0 Hlt]. unfold fix_templates. rewrite Hts, He.
  destruct ts as [|ts]; [lia|]. destruct e as [|e]; [lia|].
  cbn [truthy default from_option andb id].
  destruct (Nat.ltb_spec (S e) (S ts)); [done|lia].
Qed.

(** A counter that never reaches 0 lets the loop run to the end of the
    buffer: every line it counts is appended. *)
Lemma scan_never_closes (ls : list string) (bc : Z) :
  0%Z ∉ depths bc ls ->
  scan_loop true bc ls = (List.filter non_anchor ls, false).
Proof.
  revert bc. induction ls as [|l ls IH]; intros bc H; simpl; [done|].
  simpl in H. unfold non_anchor at 1.
  destruct (contains inner_anchor l); simpl.
  - by apply IH.
  - apply not_elem_of_cons in H as [H0 H].
    destruct (Z.eqb_spec (after_line bc l) 0); [congruence|].
    by rewrite (IH _ H).
Qed.

(** C1, as the code has it: when the anchor follows the export and the
    brace counter never comes back to 0 before the end of the buffer,
    the scan does not report a failure.  It takes every line after the
    anchor as the block, and the script writes the result and prints
    its success message. *)
Theorem unbalanced_block_is_written (lines : list string) (e ts : nat) :
  find_line anchor lines = Some ts ->
  find_line export_marker lines = Some e ->
  (0 < e < ts)%nat ->
  0%Z ∉ depths 1 (drop (S ts) lines) ->
  (scan_loop false 0 (drop ts lines)).2 = false /\
  fix_templates lines
  = Written
      (close_file (take (S e) lines ++ header
                     ++ List.filter non_anchor (drop (S ts) lines))
         ++ collect_tail (drop (S e) lines))
      ["Fixed templates structure"].
Proof.
  intros Hts He Hlt Hd.
  rewrite (fix_templates_found lines e ts) by done.
  unfold relocate. rewrite (scan_from_anchor _ _ Hts).
  rewrite (scan_never_closes _ _ Hd). simpl. split; [done|].
  by rewrite <- app_assoc.
Qed.

Lemma unbalanced_block_is_written_witness :
  (scan_loop false 0 (drop 2 Samples.unbalanced)).2 = false /\
  fix_templates Samples.unbalanced
  = Written
      (close_file (take 2 Samples.unbalanced ++ header
                     ++ List.filter non_anchor (drop 3 Samples.unbalanced))
         ++ collect_tail (drop 2 Samples.unbalanced))
      ["Fixed templates structure"].
Proof.
  apply (unbalanced_block_is_written Samples.unbalanced 1 2);
    [reflexivity | reflexivity | lia |].
  vm_compute. intros H. repeat (apply elem_of_cons in H as [H|H]; [done|]).
  by apply elem_of_nil in H.
Defined.

(** C1 as the specification states it fails: on a buffer with more open
    than close delimiters after the anchor the counter stays above 0,
    and yet the script writes the file, with the unclosed lines as the
    block, and reports success. *)
Lemma unbalanced_scan_not_reported :
  depths 1 (drop 3 Samples.unbalanced) = [2; 2; 1]%Z /\
  fix_templates Samples.unbalanced
  = Written
      [ "import x;" +:+ nl;
        "export default nubiCharacter;" +:+ nl;
        nl;
        "// Export templates for use in other modules" +:+ nl;
        "export const nubiTemplates = {" +:+ nl;
        "    greeting: {" +:+ nl;
        "      text: 1" +:+ nl;
        "    },;" +:+ nl ]
      ["Fixed templates structure"] /\
  fix_templates Samples.unbalanced
  <> Untouched ["Could not find templates definition"].
Proof. split_and!; [reflexivity | reflexivity | by vm_compute]. Qed.

(** The two tests of lines 46 and 48 change nothing: a line moves the
    counter by its open delimiters less its close delimiters. *)
Lemma after_line_net (bc : Z) (line : string) :
  after_line bc line = (bc + count "{" line - count "}" line)%Z.
Proof.
  unfold after_line.
  destruct (contains "{" line) eqn:Ho, (contains "}" line) eqn:Hc;
    rewrite ?(count_absent _ _ Ho), ?(count_absent _ _ Hc); lia.
Qed.

(** C4, as the code has it: the counter moves once per line, by the
    number of open delimiters less the number of close delimiters on
    that line, and the block ends with the first whole line after which
    the counter is 0.  The scan leaves through [break] with block [blk]
    exactly when the lines split into a part [pre] on which the counter
    never is 0, a line [last] after which it is 0, and a rest that is
    not read; [blk] is then [pre] without the lines that hold the
    anchor text, followed by [last]. *)
Theorem scan_loop_line_granular (ls : list string) (bc : Z)
    (blk : list string) :
  (forall d line,
     after_line d line = (d + count "{" line - count "}" line)%Z) /\
  (scan_loop true bc ls = (blk, true) <->
   exists pre last post,
     ls = pre ++ last :: post /\
     non_anchor last = true /\
     (0%Z ∉ depths bc pre) /\
     depths bc (pre ++ [last]) = depths bc pre ++ [0%Z] /\
     blk = List.filter non_anchor pre ++ [last]).
Proof.
  split; [apply after_line_net|]. split.
  - revert bc blk. induction ls as [|l ls IH]; intros bc blk; simpl; [done|].
    destruct (contains inner_anchor l) eqn:Hl.
    + intros (pre & last & post & -> & H1 & H2 & H3 & ->)%IH.
      exists (l :: pre), last, post. simpl. unfold non_anchor at 3.
      rewrite Hl. simpl. done.
    + destruct (Z.eqb_spec (after_line bc l) 0) as [Hz|Hz].
      * intros [= <-]. exists [], l, ls. simpl. unfold non_anchor.
        rewrite Hl, Hz. split_and!; try done. apply not_elem_of_nil.
      * destruct (scan_loop true (after_line bc l) ls) as [r1 r2] eqn:Hr.
        simpl. intros [= <- ->].
        apply IH in Hr as (pre & last & post & -> & H1 & H2 & H3 & ->).
        exists (l :: pre), last, post. simpl. unfold non_anchor at 3.
        rewrite Hl, H3. simpl. split_and!; try done.
        by apply not_elem_of_cons.
  - intros (pre & last & post & -> & H1 & H2 & H3 & ->).
    apply negb_true_iff in H1.
    revert bc H2 H3. induction pre as [|l pre IH]; intros bc H2 H3; simpl.
    + simpl in H3. rewrite H1 in *. injection H3 as ->. done.
    + simpl in H2, H3. unfold non_anchor at 1.
      destruct (contains inner_anchor l) eqn:Hl; simpl.
      * by apply IH.
      * apply not_elem_of_cons in H2 as [H0 H2]. injection H3 as H3.
        destruct (Z.eqb_spec (after_line bc l) 0); [congruence|].
        by rewrite (IH _ H2 H3).
Qed.

Lemma scan_loop_line_granular_witness :
  scan_loop true 1 Samples.close_then_open = (Samples.close_then_open, true) /\
  exists pre last post,
    Samples.close_then_open = pre ++ last :: post /\
    non_anchor last = true /\
    (0%Z ∉ depths 1 pre) /\
    depths 1 (pre ++ [last]) = depths 1 pre ++ [0%Z] /\
    Samples.close_then_open = List.filter non_anchor pre ++ [last].
Proof.
  split; [reflexivity|].
  apply (scan_loop_line_granular Samples.close_then_open 1
           Samples.close_then_open).
  reflexivity.
Defined.

(** C4 as the specification states it fails.  After the first line of
    [Samples.close_then_open] the close delimiter at offset 7 brings the
    depth to 0, on a line that ends at offset 19; the line holds an open
    delimiter too, so the code's counter stays at 1 and the block runs
    on to offset 30, two lines further. *)
Lemma block_runs_past_closing_delimiter :
  scan_loop true 1 Samples.close_then_open
  = (Samples.close_then_open, true) /\
  Spec.char_scan 1 (writelines Samples.close_then_open) = Some 7%nat /\
  String.length (writelines (take 2 Samples.close_then_open)) = 19%nat /\
  ~ Spec.ends_at_closing_delimiter
      Samples.close_then_open Samples.close_then_open.
Proof.
  split_and!; [reflexivity..|].
  intros (off & H1 & H2). vm_compute in H1. injection H1 as <-.
  vm_compute in H2. lia.
Qed.

(** *** The terminator of lines 56-57 *)

(** The terminator goes on the last kept line, and only there. *)
Lemma close_file_snoc (kept : list string) (l : string) :
  close_file (kept ++ [l])
  = kept ++ [ if endswith (";" +:+ nl) l then l
              else rstrip l +:+ ";" +:+ nl ].
Proof.
  unfold close_file. rewrite last_snoc.
  destruct (endswith (";" +:+ nl) l); [done|].
  rewrite length_app. simpl.
  replace (length kept + 1 - 1)%nat with (length kept + 0)%nat by lia.
  by rewrite insert_app_r.
Qed.

(** C5, as the code has it: the last kept line is left alone when it
    ends with a terminator and a newline; otherwise its trailing
    whitespace is dropped and a terminator and a newline are added
    after whatever character ends it, a separator included.  No other
    line changes and no line is added or removed. *)
Theorem close_file_appends_terminator (kept : list string) (l : string) :
  close_file (kept ++ [l])
  = kept ++ [ if endswith (";" +:+ nl) l then l
              else rstrip l +:+ ";" +:+ nl ] /\
  (forall i x, kept !! i = Some x -> close_file (kept ++ [l]) !! i = Some x) /\
  length (close_file (kept ++ [l])) = length (kept ++ [l]).
Proof.
  rewrite close_file_snoc. split_and!.
  - done.
  - intros i x Hi. by apply lookup_app_l_Some.
  - by rewrite !length_app.
Qed.

(** C5 as the specification states it fails: a block that ends with a
    separator keeps it, and the terminator comes after it. *)
Lemma separator_is_kept :
  close_file ["  a: 1," +:+ nl; "}," +:+ nl]
  = ["  a: 1," +:+ nl; "},;" +:+ nl] /\
  rstrip ("}," +:+ nl) = "}," /\
  Spec.replace_last_separator (rstrip ("}," +:+ nl)) = "};" /\
  close_file ["  a: 1," +:+ nl; "}," +:+ nl]
  <> ["  a: 1," +:+ nl;
      Spec.replace_last_separator (rstrip ("}," +:+ nl)) +:+ nl].
Proof. split_and!; [reflexivity..|]. by vm_compute. Qed.

Lemma close_file_app (l1 l2 : list string) :
  l2 <> [] -> close_file (l1 ++ l2) = l1 ++ close_file l2.
Proof.
  destruct l2 as [|x l2 _] using rev_ind; [done|]. intros _.
  rewrite app_assoc, !close_file_snoc.
  by rewrite <- app_assoc.
Qed.

(** What the script writes: the lines up to the export, the relocated
    declaration, the kept tail. *)
Lemma relocate_parts (lines : list string) (e ts : nat) :
  relocate lines e ts
  = take (S e) lines ++ declaration lines ts
      ++ collect_tail (drop (S e) lines).
Proof.
  unfold relocate, declaration. rewrite <- (app_assoc (take _ _)).
  rewrite close_file_app by done. by rewrite <- app_assoc.
Qed.

End TemplatesFacts.

(** ** The lines kept after the export *)

Module TailFacts.

Import FixTemplates.

Lemma collect_sublist (pred : string -> bool) (rest : list string) :
  collect pred rest `sublist_of` rest.
Proof.
  induction rest as [|l rest IH]; simpl; [done|].
  destruct (pred l); by constructor.
Qed.

Lemma collect_count (pred : string -> bool) (rest : list string) (l : string) :
  count_occ string_dec (collect pred rest) l
  = if pred l then count_occ string_dec rest l else 0%nat.
Proof.
  induction rest as [|x rest IH]; simpl; [by destruct (pred l)|].
  destruct (pred x) eqn:Hx; simpl; destruct (string_dec x l) as [->|Hne];
    rewrite IH; try rewrite Hx; done.
Qed.

Lemma collect_filter (pred : string -> bool) (rest : list string) :
  collect pred rest = List.filter pred rest.
Proof.
  induction rest as [|l rest IH]; simpl; [done|]. by rewrite IH.
Qed.


(** C9: whatever the test and the lines that followed the export, the
    kept lines come in the order they had and each as often as it was
    there, never more, also when a line passes the test on two counts;
    lines that fail the test are not kept.  Both scripts write them,
    unchanged, right after the declaration they put behind the
    export. *)
Theorem tail_kept_in_order_once (pred : string -> bool)
    (rest lines : list string) (e ts : nat) :
  collect pred rest = List.filter pred rest /\
  collect pred rest `sublist_of` rest /\
  (forall l, count_occ string_dec (collect pred rest) l
             = if pred l then count_occ string_dec rest l else 0%nat) /\
  relocate lines e ts
  = (take (S e) lines ++ declaration lines ts)
      ++ collect FixTemplates.tail_pred (drop (S e) lines) /\
  FixNubiFinal.clean_up lines e
  = (FixNubiFinal.py_insert 1 FixNubiFinal.import_line
       (take (S e) lines ++ [nl]) ++ FixNubiFinal.footer)
      ++ collect FixNubiFinal.tail_pred (drop (S e) lines).
Proof.
  split_and!.
  - apply collect_filter.
  - apply collect_sublist.
  - apply collect_count.
  - rewrite TemplatesFacts.relocate_parts. by rewrite <- app_assoc.
  - done.
Qed.




End TailFacts.

(** ** The round trip *)

Module RoundTripFacts.

Import FixTemplates TemplatesFacts TailFacts.




End RoundTripFacts.

(** ** Failed searches leave the file alone *)

Module GuardFacts.

(** C3, as the code has it: the failures the scripts know are those of
    their searches.  When the search for the anchor or for the export
    fails, or the anchor does not follow the export, fix-templates.py
    never opens the file for writing, and neither does fix-nubi-final.py
    when its search for the export fails: the file is what it was. *)
Theorem failed_relocation_leaves_file (file : string) :
  (truthy (find_line FixTemplates.anchor (readlines file)) = false \/
   truthy (find_line FixTemplates.export_marker (readlines file)) = false \/
   (default 0 (find_line FixTemplates.anchor (readlines file))
    <= default 0 (find_line FixTemplates.export_marker (readlines file)))%nat
   -> (FixTemplates.run file).1 = file /\
      FixTemplates.fix_templates (readlines file)
      = Untouched (FixTemplates.run file).2) /\
  (truthy (find_line FixNubiFinal.export_marker (readlines file)) = false
   -> (FixNubiFinal.run file).1 = file /\
      FixNubiFinal.fix_nubi_final (readlines file)
      = Untouched (FixNubiFinal.run file).2).
Proof.
  split.
  - unfold FixTemplates.run, FixTemplates.fix_templates.
    intros [H|[H|H]].
    + by rewrite H.
    + rewrite H.
      by destruct (truthy (find_line FixTemplates.anchor (readlines file))).
    + destruct (truthy (find_line FixTemplates.anchor (readlines file)));
        [|done].
      destruct (truthy
        (find_line FixTemplates.export_marker (readlines file))); [|done].
      simpl.
      destruct (Nat.ltb_spec
        (default 0 (find_line FixTemplates.export_marker (readlines file)))
        (default 0 (find_line FixTemplates.anchor (readlines file))));
        [lia|done].
  - unfold FixNubiFinal.run, FixNubiFinal.fix_nubi_final. intros H.
    by rewrite H.
Qed.

Lemma failed_relocation_leaves_file_witness :
  ((FixTemplates.run Samples.plain_file).1 = Samples.plain_file /\
   FixTemplates.fix_templates (readlines Samples.plain_file)
   = Untouched (FixTemplates.run Samples.plain_file).2) /\
  ((FixNubiFinal.run Samples.plain_file).1 = Samples.plain_file /\
   FixNubiFinal.fix_nubi_final (readlines Samples.plain_file)
   = Untouched (FixNubiFinal.run Samples.plain_file).2).
Proof.
  destruct (failed_relocation_leaves_file Samples.plain_file) as [H1 H2].
  split; [apply H1; left; reflexivity | apply H2; reflexivity].
Defined.

(** C3 as the specification states it fails.  In
    [MoreSamples.unbalanced_file] the anchor is found after the export
    and the delimiters of its block never balance: the counter is above
    0 to the end of the buffer and the scan ends without closing the
    block.  The script does not take this for a failed relocation: it
    writes the file, which is no longer what it was, and prints its
    success message. *)
Lemma unbalanced_file_is_rewritten :
  readlines MoreSamples.unbalanced_file = Samples.unbalanced /\
  FixTemplates.depths 1 (drop 3 (readlines MoreSamples.unbalanced_file))
  = [2; 2; 1]%Z /\
  (FixTemplates.scan_loop false 0
     (drop 2 (readlines MoreSamples.unbalanced_file))).2 = false /\
  FixTemplates.run MoreSamples.unbalanced_file
  = (writelines
       [ "import x;" +:+ nl;
         "export default nubiCharacter;" +:+ nl;
         nl;
         "// Export templates for use in other modules" +:+ nl;
         "export const nubiTemplates = {" +:+ nl;
         "    greeting: {" +:+ nl;
         "      text: 1" +:+ nl;
         "    },;" +:+ nl ],
     ["Fixed templates structure"]) /\
  (FixTemplates.run MoreSamples.unbalanced_file).1
  <> MoreSamples.unbalanced_file.
Proof. split_and!; [reflexivity..|by vm_compute]. Qed.

End GuardFacts.

(** ** Guarded line assignments *)

Module LineFacts.

Import ComprehensiveFix.

(** C6, as the code has it: a buffer with fewer lines than the index
    asked for is passed on unchanged and nothing fails; a buffer with
    more lines than the index gets the new text as the whole of that
    line, every other line staying as it was. *)
Theorem replace_line_guarded (n : nat) (x : string) (lines : list string) :
  (1 <= n)%nat ->
  ((length lines < n)%nat -> replace_line n x lines = Some lines) /\
  ((n < length lines)%nat ->
   exists out,
     replace_line n x lines = Some out /\
     length out = length lines /\
     out !! (n - 1)%nat = Some x /\
     forall j, j <> (n - 1)%nat -> out !! j = lines !! j).
Proof.
  intros Hn. unfold replace_line, guarded_assign, setitem. split; intros H.
  - destruct (Nat.ltb_spec n (length lines)); [lia|done].
  - destruct (Nat.ltb_spec n (length lines)); [|lia].
    destruct (Nat.ltb_spec (n - 1) (length lines)); [|lia].
    eexists. split; [done|]. split_and!.
    + apply length_insert.
    + by apply list_lookup_insert_eq.
    + intros j Hj. by apply list_lookup_insert_ne.
Qed.

Lemma replace_line_guarded_witness :
  ((length ["a"; "b"; "c"] < 5)%nat ->
   replace_line 5 "x" ["a"; "b"; "c"] = Some ["a"; "b"; "c"]) /\
  ((2 < length ["a"; "b"; "c"])%nat ->
   exists out,
     replace_line 2 "x" ["a"; "b"; "c"] = Some out /\
     length out = length ["a"; "b"; "c"] /\
     out !! (2 - 1)%nat = Some "x" /\
     forall j, j <> (2 - 1)%nat -> out !! j = ["a"; "b"; "c"] !! j).
Proof.
  split.
  - apply (replace_line_guarded 5 "x" ["a"; "b"; "c"]). lia.
  - apply (replace_line_guarded 2 "x" ["a"; "b"; "c"]). lia.
Defined.

(** The guard is strict: a buffer that ends with the line asked for is
    passed on unchanged as well. *)
Remark replace_line_at_last_line (n : nat) (x : string) (lines : list string) :
  length lines = n -> replace_line n x lines = Some lines.
Proof.
  intros <-. unfold replace_line, guarded_assign.
  by rewrite Nat.ltb_irrefl.
Qed.

(** A guard above the index makes the assignment safe. *)
Lemma guarded_assign_total (bound i : nat) (x : string) (lines : list string) :
  (i < bound)%nat ->
  exists out,
    guarded_assign bound i x lines = Some out /\ length out = length lines.
Proof.
  intros Hi. unfold guarded_assign, setitem.
  destruct (Nat.ltb_spec bound (length lines)); [|by eexists].
  destruct (Nat.ltb_spec i (length lines)); [|lia].
  eexists. split; [done|]. apply length_insert.
Qed.

(** The three assignments of the script never fail and keep the number
    of lines. *)
Lemma patch_error_handler_total (lines : list string) :
  exists out,
    patch_error_handler lines = Some out /\ length out = length lines.
Proof.
  unfold patch_error_handler.
  destruct (guarded_assign_total 34 33 line34 lines) as (l1 & -> & H1);
    [lia|]. simpl.
  destruct (guarded_assign_total 37 36 line37 l1) as (l2 & -> & H2);
    [lia|]. simpl.
  destruct (guarded_assign_total 107 106 line107 l2) as (l3 & -> & H3);
    [lia|].
  exists l3. split; [done|]. congruence.
Qed.

(** C6 as the specification states it fails: asked for line 5 of a
    buffer of 3 lines, the guarded assignment does not fail, it returns
    the buffer; so do the three assignments of the script, which ask for
    lines 34, 37 and 107. *)
Lemma short_buffer_is_not_an_error :
  replace_line 5 "x" ["a"; "b"; "c"] = Some ["a"; "b"; "c"] /\
  replace_line 5 "x" ["a"; "b"; "c"] <> None /\
  patch_error_handler ["a"; "b"; "c"] = Some ["a"; "b"; "c"].
Proof. split_and!; [reflexivity | discriminate | reflexivity]. Qed.

End LineFacts.

(** ** Substitutions *)

Module SubstituteFacts.

(** C8, as the code has it: fix-templates.py prints a line of its own
    for each way its search can fail, and the scripts that substitute
    print the same line whatever the content, so that nothing they
    print depends on the number of replacements. *)
Theorem diagnostics_printed (lines : list string) (content : string) :
  (truthy (find_line FixTemplates.anchor lines) = false ->
   FixTemplates.fix_templates lines
   = Untouched ["Could not find templates definition"]) /\
  (truthy (find_line FixTemplates.anchor lines) = true ->
   truthy (find_line FixTemplates.export_marker lines)
   && (default 0 (find_line FixTemplates.export_marker lines)
       <? default 0 (find_line FixTemplates.anchor lines))%nat = false ->
   FixTemplates.fix_templates lines
   = Untouched ["Export/templates order seems OK"]) /\
  (ComprehensiveFix.run_raid content).2 = ["Fixing nubi-raid-system.ts..."] /\
  (FixRaidSystem.run content).2
  = ["Fixed nubi-raid-system.ts compilation errors"].
Proof.
  unfold FixTemplates.fix_templates. split_and!; [| |done..].
  - by intros ->.
  - by intros -> ->.
Qed.

Lemma diagnostics_printed_witness :
  FixTemplates.fix_templates (readlines Samples.plain_file)
  = Untouched ["Could not find templates definition"] /\
  FixTemplates.fix_templates (take 4 (drop 2 Samples.mixed))
  = Untouched ["Export/templates order seems OK"].
Proof.
  split.
  - apply (diagnostics_printed (readlines Samples.plain_file) "").
    reflexivity.
  - apply (diagnostics_printed (take 4 (drop 2 Samples.mixed)) "");
      reflexivity.
Defined.

(** C8 as the specification states it fails: on a content in which no
    pattern of the section occurs, every substitution makes zero
    replacements and the content comes back as it was, yet what is
    printed is what is printed when a replacement is made. *)
Lemma zero_replacements_not_reported :
  ComprehensiveFix.run_raid "const x = 1;"
  = ("const x = 1;", ["Fixing nubi-raid-system.ts..."]) /\
  ComprehensiveFix.run_raid "if (text.toLowerCase() == 1) {}"
  = ("if (text && text.toLowerCase() == 1) {}",
     ["Fixing nubi-raid-system.ts..."]) /\
  count "if (text.toLowerCase()" "const x = 1;" = 0%Z /\
  count "if (text.toLowerCase()" "if (text.toLowerCase() == 1) {}" = 1%Z.
Proof. split_and!; reflexivity. Qed.

(** C2 fails on the code: the first substitution of fix-raid-system.py
    puts back the text it looks for, so a second run adds the line a
    second time; and fix-nubi-final.py inserts its import line on every
    run. *)
Theorem second_run_changes_buffer :
  FixRaidSystem.patch "quote: number;"
  = "quote: number;" +:+ nl +:+ "        view: number;" /\
  FixRaidSystem.patch (FixRaidSystem.patch "quote: number;")
  = "quote: number;" +:+ nl +:+ "        view: number;"
      +:+ nl +:+ "        view: number;" /\
  FixRaidSystem.patch (FixRaidSystem.patch "quote: number;")
  <> FixRaidSystem.patch "quote: number;" /\
  (exists once twice,
     FixNubiFinal.fix_nubi_final
       ["import x;" +:+ nl; "export default nubiCharacter;" +:+ nl]
     = Written once ["Cleaned up nubi-character.ts"] /\
     FixNubiFinal.fix_nubi_final once
     = Written twice ["Cleaned up nubi-character.ts"] /\
     count_occ string_dec once FixNubiFinal.import_line = 1%nat /\
     count_occ string_dec twice FixNubiFinal.import_line = 2%nat /\
     twice <> once).
Proof.
  split_and!; [reflexivity | reflexivity | by vm_compute |].
  eexists _, _. split_and!; [reflexivity | reflexivity | reflexivity
                            | reflexivity | by vm_compute].
Qed.

End SubstituteFacts.

(** ** Laws of the string primitives *)

Module PrimitiveLaws.

Lemma append_nil_l (s : string) : "" +:+ s = s.
Proof. reflexivity. Qed.

Lemma append_nil_r (s : string) : s +:+ "" = s.
Proof.
  induction s as [|c s IH]; [done|]. rewrite append_cons. by f_equal.
Qed.

Lemma is_line_nonempty (l : string) : is_line l = true -> l <> "".
Proof. by destruct l. Qed.

Lemma is_line_cons (c : ascii) (l : string) :
  l <> "" -> is_line (String c l) = negb (Ascii.eqb c "010") && is_line l.
Proof. by destruct l. Qed.

Lemma endswith_cons (suf : string) (c : ascii) (l : string) :
  endswith suf l = true -> endswith suf (String c l) = true.
Proof. intros H. cbn [endswith]. rewrite H. apply orb_true_r. Qed.

Lemma lines_ok_cons (l : string) (ls : list string) :
  lines_ok (l :: ls) = true <->
  is_line l = true /\ lines_ok ls = true /\ (ls <> [] -> endswith nl l = true).
Proof.
  destruct ls as [|l' ls]; cbn [lines_ok].
  - split; [intros ->; by split_and!|by intros (-> & _)].
  - rewrite !andb_true_iff. split.
    + intros [[H1 H2] H3]. by split_and!.
    + intros (H1 & H2 & H3). split_and!; [done| |done]. by apply H3.
Qed.

Lemma split_lines_ok (s : string) : lines_ok (split_lines s) = true.
Proof.
  induction s as [|c s IH]; [done|]. cbn [split_lines].
  destruct (Ascii.eqb c "010") eqn:Hc.
  - apply Ascii.eqb_eq in Hc as ->. apply lines_ok_cons. by split_and!.
  - destruct (split_lines s) as [|l ls]; [done|].
    apply lines_ok_cons in IH as (H1 & H2 & H3). apply lines_ok_cons.
    split_and!; [|done|].
    + rewrite is_line_cons by by apply is_line_nonempty.
      by rewrite Hc, H1.
    + intros Hls. by apply endswith_cons, H3.
Qed.

(** No carriage return is left in what is read. *)
Lemma translate_no_cr (after_cr : bool) (s : string) :
  char_in "013" (translate_newlines after_cr s) = false.
Proof.
  revert after_cr. induction s as [|c s IH]; intros b; [done|].
  cbn [translate_newlines].
  destruct (Ascii.eqb c "013") eqn:Hcr; [cbn [char_in]; by rewrite IH|].
  rewrite Ascii.eqb_sym in Hcr.
  destruct (Ascii.eqb c "010"); [destruct b|];
    cbn [char_in]; rewrite ?Hcr, ?IH; done.
Qed.

(** A text without carriage return is read as it is. *)
Lemma read_without_cr (s : string) : char_in "013" s = false -> read s = s.
Proof.
  unfold read. induction s as [|c s IH]; [done|].
  cbn [char_in translate_newlines]. rewrite Ascii.eqb_sym.
  intros [Hc Hs]%orb_false_iff. rewrite Hc, (IH Hs).
  by destruct (Ascii.eqb c "010").
Qed.


Lemma char_in_app (c : ascii) (a b : string) :
  char_in c (a +:+ b) = char_in c a || char_in c b.
Proof.
  induction a as [|x a IH]; [done|]. rewrite append_cons. cbn [char_in].
  by rewrite IH, orb_assoc.
Qed.

(** The lines of a text hold the characters of the text only. *)
Lemma split_lines_chars (c : ascii) (s : string) :
  char_in c s = false ->
  forall l, l ∈ split_lines s -> char_in c l = false.
Proof.
  intros Hs l Hl. rewrite <- (writelines_split_lines s) in Hs.
  induction (split_lines s) as [|x ls IH]; [by apply elem_of_nil in Hl|].
  cbn [writelines] in Hs. rewrite char_in_app in Hs.
  apply orb_false_iff in Hs as [Hx Hls].
  apply elem_of_cons in Hl as [->|Hl]; auto.
Qed.

Lemma writelines_chars (c : ascii) (ls : list string) :
  (forall l, l ∈ ls -> char_in c l = false) ->
  char_in c (writelines ls) = false.
Proof.
  induction ls as [|x ls IH]; intros H; [done|]. cbn [writelines].
  rewrite char_in_app, (H x) by (apply elem_of_cons; by left).
  apply IH. intros l Hl. apply H, elem_of_cons. by right.
Qed.

Lemma readlines_no_cr (file l : string) :
  l ∈ readlines file -> char_in "013" l = false.
Proof. apply split_lines_chars, translate_no_cr. Qed.



Lemma split_lines_line_app (l rest : string) :
  is_line l = true -> endswith nl l = true ->
  split_lines (l +:+ rest) = l :: split_lines rest.
Proof.
  induction l as [|c l IH]; [done|]. intros Hl He.
  rewrite append_cons. cbn [split_lines].
  destruct l as [|c' l'].
  - cbn [endswith] in He. rewrite orb_false_r in He.
    apply String.eqb_eq in He. injection He as <-. done.
  - rewrite is_line_cons in Hl by done.
    apply andb_true_iff in Hl as [Hc Hl]. apply negb_true_iff in Hc.
    rewrite Hc. cbn [endswith] in He.
    assert (Hne : String.eqb nl (String c (String c' l')) = false).
    { unfold nl. cbn [String.eqb]. by destruct (Ascii.eqb "010" c). }
    rewrite Hne in He. rewrite (IH Hl He). done.
Qed.

Lemma split_lines_single (l : string) :
  is_line l = true -> split_lines l = [l].
Proof.
  induction l as [|c l IH]; [done|]. intros Hl. cbn [split_lines].
  destruct l as [|c' l'].
  - by destruct (Ascii.eqb c "010").
  - rewrite is_line_cons in Hl by done.
    apply andb_true_iff in Hl as [Hc Hl]. apply negb_true_iff in Hc.
    rewrite Hc, (IH Hl). done.
Qed.

Lemma split_lines_writelines (ls : list string) :
  lines_ok ls = true -> split_lines (writelines ls) = ls.
Proof.
  induction ls as [|l ls IH]; [done|].
  intros (H1 & H2 & H3)%lines_ok_cons. cbn [writelines].
  destruct ls as [|l' ls'].
  - cbn [writelines]. rewrite append_nil_r. by apply split_lines_single.
  - rewrite split_lines_line_app by auto. by rewrite IH.
Qed.

(** Lines that Python can have read are read back as they were
    written. *)
Lemma readlines_writelines (ls : list string) :
  lines_ok ls = true ->
  (forall l, l ∈ ls -> char_in "013" l = false) ->
  readlines (writelines ls) = ls.
Proof.
  intros Hok Hcr. unfold readlines.
  rewrite read_without_cr by by apply writelines_chars.
  by apply split_lines_writelines.
Qed.

(** X2: lines are read back exactly as they were written when they are
    lines in Python's sense (none empty, no newline inside a line, a
    newline at the end of all but the last) and hold no carriage return;
    the lines read from any file are of that kind, so that a file
    written from lines that were read is read back as those lines. *)
Theorem written_lines_are_read_back (ls : list string) (file : string) :
  (lines_ok ls = true ->
   (forall l, l ∈ ls -> char_in "013" l = false) ->
   readlines (writelines ls) = ls) /\
  readlines (writelines (readlines file)) = readlines file.
Proof.
  split; [apply readlines_writelines|].
  apply readlines_writelines; [apply split_lines_ok|].
  intros l. apply readlines_no_cr.
Qed.

Lemma written_lines_are_read_back_witness :
  readlines (writelines Samples.block_last) = Samples.block_last.
Proof.
  apply (written_lines_are_read_back Samples.block_last ""); [reflexivity|].
  intros l Hl. vm_compute in Hl.
  repeat (apply elem_of_cons in Hl as [->|Hl]; [reflexivity|]).
  by apply elem_of_nil in Hl.
Defined.

(** *** Lines that stay lines *)

Lemma lines_ok_lookup (ls : list string) (i : nat) (x : string) :
  lines_ok ls = true -> ls !! i = Some x ->
  is_line x = true /\ ((S i < length ls)%nat -> endswith nl x = true).
Proof.
  revert i. induction ls as [|y ls IH]; intros i Hok Hx; [done|].
  apply lines_ok_cons in Hok as (H1 & H2 & H3).
  destruct i as [|i]; cbn [lookup list_lookup] in Hx.
  - injection Hx as <-. split; [done|]. intros Hlen. apply H3.
    destruct ls; [simpl in Hlen; lia|done].
  - destruct (IH i H2 Hx) as [Hl He]. split; [done|].
    intros Hlen. apply He. simpl in Hlen. lia.
Qed.

Lemma lines_ok_sublist (l1 l2 : list string) :
  l1 `sublist_of` l2 -> lines_ok l2 = true -> lines_ok l1 = true.
Proof.
  induction 1 as [|x l1 l2 Hsub IH|x l1 l2 Hsub IH]; [done| |].
  - intros (H1 & H2 & H3)%lines_ok_cons. apply lines_ok_cons.
    split_and!; [done|by apply IH|]. intros Hne. apply H3. intros ->.
    apply sublist_nil_r in Hsub. done.
  - intros (H1 & H2 & H3)%lines_ok_cons. by apply IH.
Qed.

Lemma lines_ok_app (l1 l2 : list string) :
  (forall l, l ∈ l1 -> is_line l = true /\ endswith nl l = true) ->
  lines_ok l2 = true -> lines_ok (l1 ++ l2) = true.
Proof.
  induction l1 as [|x l1 IH]; intros H1 H2; [done|]. cbn [app].
  destruct (H1 x) as [Hx He]; [apply elem_of_cons; by left|].
  apply lines_ok_cons. split_and!; [done| |done].
  apply IH; [|done]. intros l Hl. apply H1, elem_of_cons. by right.
Qed.

(** *** Counting and substituting *)

Lemma startswith_nil (s : string) : startswith "" s = true.
Proof. by destruct s. Qed.

Lemma startswith_cons (a b : ascii) (p s : string) :
  startswith (String a p) (String b s) = true <->
  a = b /\ startswith p s = true.
Proof.
  unfold startswith. cbn [String.prefix].
  destruct (ascii_dec a b) as [->|Hne]; [tauto|].
  split; [done|]. by intros [? _].
Qed.

Lemma startswith_split (p s : string) :
  startswith p s = true -> exists t, s = p +:+ t.
Proof.
  revert s. induction p as [|a p IH]; intros s H.
  - by exists s.
  - destruct s as [|b s]; [done|].
    apply startswith_cons in H as [-> H].
    destruct (IH _ H) as [t ->]. by exists t.
Qed.

Lemma startswith_app (p t : string) : startswith p (p +:+ t) = true.
Proof.
  induction p as [|a p IH]; [apply startswith_nil|].
  rewrite append_cons. by apply startswith_cons.
Qed.

Lemma replace_go_skip (old new p s : string) :
  replace_go old new (String.length p) (p +:+ s) = replace_go old new 0 s.
Proof. induction p as [|c p IH]; [done|]. by rewrite append_cons. Qed.

Lemma count_go_skip (old p s : string) :
  count_go old (String.length p) (p +:+ s) = count_go old 0 s.
Proof. induction p as [|c p IH]; [done|]. by rewrite append_cons. Qed.

(** One step of [replace_go] and of [count_go] at an occurrence. *)
Lemma replace_go_match (a : ascii) (old new t : string) :
  replace_go (String a old) new 0 (String a old +:+ t)
  = new +:+ replace_go (String a old) new 0 t.
Proof.
  rewrite append_cons. cbn [replace_go].
  rewrite <- append_cons, startswith_app.
  replace (String.length (String a old) - 1)%nat with (String.length old)
    by (simpl; lia).
  by rewrite replace_go_skip.
Qed.

Lemma count_go_match (a : ascii) (old t : string) :
  count_go (String a old) 0 (String a old +:+ t)
  = (1 + count_go (String a old) 0 t)%Z.
Proof.
  rewrite append_cons. cbn [count_go].
  rewrite <- append_cons, startswith_app.
  replace (String.length (String a old) - 1)%nat with (String.length old)
    by (simpl; lia).
  by rewrite count_go_skip.
Qed.

(** The scheme both loops follow: at each position either an occurrence
    starts, and the loop goes on behind it, or it does not, and the loop
    goes on at the next character. *)
Lemma occurrence_ind (old : string) (P : string -> Prop) :
  P "" ->
  (forall t, P t -> P (old +:+ t)) ->
  (forall c s, startswith old (String c s) = false -> P s -> P (String c s)) ->
  old <> "" ->
  forall s, P s.
Proof.
  intros Hnil Hocc Hstep Hold s.
  assert (H : forall n s, (String.length s <= n)%nat -> P s);
    [|by apply (H (String.length s))].
  clear s. induction n as [|n IH]; intros s Hn.
  - destruct s; [done|simpl in Hn; lia].
  - destruct s as [|c s]; [done|].
    destruct (startswith old (String c s)) eqn:Hs.
    + apply startswith_split in Hs as [t Ht]. rewrite Ht. apply Hocc, IH.
      apply (f_equal String.length) in Ht. rewrite append_length in Ht.
      destruct old; [done|]. simpl in *. lia.
    + apply Hstep; [done|]. apply IH. simpl in Hn. lia.
Qed.

Lemma count_go_nonneg (old : string) (k : nat) (s : string) :
  (0 <= count_go old k s)%Z.
Proof.
  revert k. induction s as [|c s IH]; intros k; cbn [count_go]; [lia|].
  destruct k; [|apply IH].
  destruct (startswith old (String c s)); [|apply IH].
  specialize (IH (String.length old - 1)%nat). lia.
Qed.

(** X3: a substitution counts no occurrence exactly when the pattern is
    not in the text, and it then gives the text back as it is; the
    count is never negative. *)
Theorem no_occurrence_no_change (old new s : string) :
  (count old s = 0%Z <-> contains old s = false) /\
  (0 <= count old s)%Z /\
  (contains old s = false -> replace old new s = s).
Proof.
  split_and!; [|destruct old; [simpl; lia|apply count_go_nonneg]
              |apply replace_absent].
  split; [|apply count_absent].
  destruct old as [|a old]; [simpl; lia|]. unfold count.
  induction s as [|c s IH]; [done|].
  rewrite contains_unfold. cbn [count_go].
  destruct (startswith (String a old) (String c s)).
  - pose proof (count_go_nonneg (String a old)
                  (String.length (String a old) - 1) s). lia.
  - intros Hz. by apply IH.
Qed.

Lemma no_occurrence_no_change_witness :
  replace "foo" "bar" "const x = 1;" = "const x = 1;".
Proof.
  apply (no_occurrence_no_change "foo" "bar" "const x = 1;"). reflexivity.
Defined.

Lemma replace_go_self (old s : string) :
  old <> "" -> replace_go old old 0 s = s.
Proof.
  intros Hold. destruct old as [|a old]; [done|].
  revert s. apply (occurrence_ind (String a old)); [done| | |done].
  - intros t IH. by rewrite replace_go_match, IH.
  - intros c t Hs IH. cbn [replace_go]. by rewrite Hs, IH.
Qed.

Lemma intersperse_empty (s : string) : intersperse_new "" s = s.
Proof.
  induction s as [|c s IH]; [done|]. cbn [intersperse_new].
  by rewrite append_nil_l, IH.
Qed.

Lemma replace_self (old s : string) : replace old old s = s.
Proof.
  destruct old as [|a old]; [apply intersperse_empty|].
  by apply replace_go_self.
Qed.

Lemma intersperse_length (new s : string) :
  String.length (intersperse_new new s)
  = (String.length s + (String.length s + 1) * String.length new)%nat.
Proof.
  induction s as [|c s IH]; cbn [intersperse_new].
  - simpl. lia.
  - rewrite append_length. cbn [String.length]. rewrite IH. lia.
Qed.

(** X4: the length of the text after a substitution is its length
    before plus, for each occurrence counted, the length of the
    replacement less the length of the pattern: [count] is the number of
    replacements that [replace] makes. *)
Theorem replace_length (old new s : string) :
  Z.of_nat (String.length (replace old new s))
  = (Z.of_nat (String.length s)
     + count old s
       * (Z.of_nat (String.length new) - Z.of_nat (String.length old)))%Z.
Proof.
  destruct old as [|a old].
  - unfold replace, count. rewrite intersperse_length. simpl. lia.
  - unfold replace, count.
    revert s. apply (occurrence_ind (String a old)); [done| | |done].
    + intros t IH. rewrite replace_go_match, count_go_match.
      rewrite !append_length. lia.
    + intros c t Hs IH. cbn [replace_go count_go]. rewrite Hs.
      cbn [String.length] in *. lia.
Qed.

(** X5: the first substitution applied to the repository files puts the
    text it found back in place, so that the content changes by the
    second one alone. *)
Theorem where_fix_changes_nothing (content : string) :
  replace ".where(" ".where(" content = content /\
  FixRemainingIssues.patch_repository content
  = replace "+ 1" "+ 1 as any" content.
Proof.
  unfold FixRemainingIssues.patch_repository.
  rewrite replace_self. done.
Qed.

(** *** Occurrences and concatenation *)

Lemma startswith_app_l (p a b : string) :
  startswith p a = true -> startswith p (a +:+ b) = true.
Proof.
  revert a. induction p as [|c p IH]; intros a H; [apply startswith_nil|].
  destruct a as [|x a]; [done|]. rewrite append_cons.
  apply startswith_cons in H as [-> H]. apply startswith_cons. auto.
Qed.

Lemma contains_app_l (sub a b : string) :
  contains sub a = true -> contains sub (a +:+ b) = true.
Proof.
  induction a as [|c a IH]; rewrite contains_unfold.
  - rewrite orb_false_r. intros H.
    by apply startswith_contains, (startswith_app_l sub "" b).
  - intros [H|H]%orb_true_iff.
    + by apply startswith_contains, startswith_app_l.
    + rewrite append_cons, contains_unfold, (IH H). apply orb_true_r.
Qed.

Lemma contains_app_r (sub a b : string) :
  contains sub b = true -> contains sub (a +:+ b) = true.
Proof.
  intros H. induction a as [|c a IH]; [done|].
  rewrite append_cons, contains_unfold, IH. apply orb_true_r.
Qed.

Lemma contains_first_char (c : ascii) (p b : string) :
  contains (String c p) b = true -> char_in c b = true.
Proof.
  induction b as [|x b IH]; rewrite contains_unfold; [done|].
  cbn [char_in]. intros [H|H]%orb_true_iff.
  - apply startswith_cons in H as [-> _]. by rewrite Ascii.eqb_refl.
  - rewrite (IH H). apply orb_true_r.
Qed.

(** An occurrence cannot reach into a text that shares no character with
    the pattern. *)
Lemma startswith_app_inv (p a b : string) :
  p <> "" ->
  (forall c, char_in c p = true -> char_in c b = false) ->
  startswith p (a +:+ b) = true -> startswith p a = true.
Proof.
  revert a. induction p as [|c p IH]; intros a Hp Hd H; [done|].
  destruct a as [|x a].
  - rewrite append_nil_l in H. apply startswith_contains in H.
    apply contains_first_char in H. rewrite Hd in H; [done|].
    cbn [char_in]. by rewrite Ascii.eqb_refl.
  - rewrite append_cons in H. apply startswith_cons in H as [-> H].
    apply startswith_cons. split; [done|].
    destruct p as [|c' p']; [apply startswith_nil|].
    apply IH; [done| |done].
    intros c Hc. apply Hd. cbn [char_in] in *. rewrite Hc. apply orb_true_r.
Qed.

Lemma contains_app_inv (p a b : string) :
  p <> "" ->
  (forall c, char_in c p = true -> char_in c b = false) ->
  contains p (a +:+ b) = true -> contains p a = true.
Proof.
  intros Hp Hd. induction a as [|x a IH].
  - rewrite append_nil_l. intros H. destruct p as [|c p]; [done|].
    apply contains_first_char in H. rewrite Hd in H; [done|].
    cbn [char_in]. by rewrite Ascii.eqb_refl.
  - rewrite append_cons, contains_unfold. intros [H|H]%orb_true_iff.
    + rewrite <- append_cons in H.
      by apply startswith_contains, (startswith_app_inv p _ b).
    + rewrite contains_unfold, (IH H). apply orb_true_r.
Qed.

(** [rstrip] cuts a text at its end. *)
Lemma rstrip_prefix (l : string) : exists w, l = rstrip l +:+ w.
Proof.
  induction l as [|c l [w IH]]; [by exists ""|]. cbn [rstrip].
  destruct (rstrip l) as [|c' r].
  - destruct (is_space c); [by exists (String c l)|].
    exists l. by rewrite append_cons, append_nil_l.
  - exists w. by rewrite append_cons, <- IH.
Qed.

Lemma contains_rstrip (p l : string) :
  contains p (rstrip l) = true -> contains p l = true.
Proof.
  intros H. destruct (rstrip_prefix l) as [w Hw]. rewrite Hw.
  by apply contains_app_l.
Qed.

(** A substitution that replaces at least once leaves behind every text
    that its replacement holds. *)
Lemma contains_replace_new (sub old new s : string) :
  old <> "" ->
  contains old s = true -> contains sub new = true ->
  contains sub (replace old new s) = true.
Proof.
  intros Hold Hs Hn. destruct old as [|a old]; [done|]. unfold replace.
  induction s as [|c s IH]; [done|].
  rewrite contains_unfold in Hs. cbn [replace_go].
  destruct (startswith (String a old) (String c s)).
  - by apply contains_app_l.
  - simpl in Hs. rewrite contains_unfold, (IH Hs). apply orb_true_r.
Qed.

(** *** The search for a line *)

Lemma find_line_None (needle : string) (lines : list string) :
  find_line needle lines = None <->
  forall l, l ∈ lines -> contains needle l = false.
Proof.
  induction lines as [|x lines IH]; cbn [find_line].
  - split; [|done]. intros _ l Hl. by apply elem_of_nil in Hl.
  - destruct (contains needle x) eqn:Hx.
    + split; [done|]. intros H. rewrite H in Hx; [done|].
      apply elem_of_cons. by left.
    + destruct (find_line needle lines) as [i|]; simpl.
      * split; [done|]. intros H.
        assert (Some i = None); [|done]. apply IH.
        intros l Hl. apply H, elem_of_cons. by right.
      * split; [|done]. intros _ l [->|Hl]%elem_of_cons; [done|].
        by apply IH.
Qed.

Lemma find_line_app_l (needle : string) (l1 l2 : list string) (i : nat) :
  find_line needle l1 = Some i -> find_line needle (l1 ++ l2) = Some i.
Proof.
  revert i. induction l1 as [|x l1 IH]; intros i; simpl; [done|].
  destruct (contains needle x); [done|].
  destruct (find_line needle l1) as [j|]; simpl; [|done].
  intros [= <-]. by rewrite (IH j).
Qed.

Lemma find_line_app_r (needle : string) (l1 l2 : list string) :
  find_line needle l1 = None ->
  find_line needle (l1 ++ l2)
  = (fun j => (length l1 + j)%nat) <$> find_line needle l2.
Proof.
  induction l1 as [|x l1 IH]; simpl.
  - intros _. by destruct (find_line needle l2).
  - destruct (contains needle x); [done|].
    destruct (find_line needle l1) as [j|]; simpl; [done|].
    intros _. rewrite IH by done. by destruct (find_line needle l2).
Qed.

Lemma find_line_take (needle : string) (lines : list string) (i k : nat) :
  find_line needle lines = Some i -> (i < k)%nat ->
  find_line needle (take k lines) = Some i.
Proof.
  revert i k. induction lines as [|x lines IH]; intros i k; simpl; [done|].
  destruct k as [|k]; [lia|]. simpl.
  destruct (contains needle x); [done|].
  destruct (find_line needle lines) as [j|]; simpl; [|done].
  intros [= <-] Hk. rewrite (IH j k); [done..|lia].
Qed.

(** X6: the search returns the index of the first line that holds the
    text, and [None] exactly when no line holds it. *)
Theorem find_line_first_match (needle : string) (lines : list string)
    (i : nat) :
  (find_line needle lines = None <->
   forall l, l ∈ lines -> contains needle l = false) /\
  (find_line needle lines = Some i <->
   (exists l, lines !! i = Some l /\ contains needle l = true) /\
   forall l, l ∈ take i lines -> contains needle l = false).
Proof.
  split; [apply find_line_None|]. split.
  - intros (l & H1 & H2 & H3)%find_line_Some. eauto.
  - intros [(l & Hl & Hc) Hbefore].
    rewrite <- (take_drop i lines).
    apply find_line_None in Hbefore. rewrite find_line_app_r by done.
    rewrite (drop_S _ _ _ Hl). cbn [find_line]. rewrite Hc. simpl.
    apply lookup_lt_Some in Hl. rewrite length_take. f_equal. lia.
Qed.

End PrimitiveLaws.

Import PrimitiveLaws.

(** ** fix-templates.py: what the relocation keeps *)

Module TemplatesLaws.

Import FixTemplates TemplatesFacts.

Lemma scan_loop_sublist (b : bool) (bc : Z) (ls : list string) :
  (scan_loop b bc ls).1 `sublist_of` ls.
Proof.
  revert b bc. induction ls as [|l ls IH]; intros b bc; simpl; [done|].
  destruct (contains inner_anchor l); [by apply sublist_cons|].
  destruct b; [|by apply sublist_cons].
  destruct (after_line bc l =? 0)%Z; simpl.
  - apply sublist_skip, sublist_nil_l.
  - by apply sublist_skip.
Qed.

Lemma scan_loop_non_anchor (b : bool) (bc : Z) (ls : list string) (l : string) :
  l ∈ (scan_loop b bc ls).1 -> contains inner_anchor l = false.
Proof.
  revert b bc. induction ls as [|x ls IH]; intros b bc; simpl.
  - intros H. by apply elem_of_nil in H.
  - destruct (contains inner_anchor x) eqn:Hx; [apply IH|].
    destruct b; [|apply IH].
    destruct (after_line bc x =? 0)%Z; simpl.
    + intros [->|H]%elem_of_cons; [done|]. by apply elem_of_nil in H.
    + intros [->|H]%elem_of_cons; [done|]. by apply IH in H.
Qed.

Lemma scan_loop_no_anchor (b : bool) (bc : Z) (ls : list string) (l : string) :
  l ∈ (scan_loop b bc ls).1 -> contains anchor l = false.
Proof.
  intros Hl%scan_loop_non_anchor.
  destruct (contains anchor l) eqn:Ha; [|done].
  apply anchor_inner in Ha. congruence.
Qed.

Lemma scan_loop_idle (bc : Z) (ls : list string) :
  (forall l, l ∈ ls -> contains inner_anchor l = false) ->
  scan_loop false bc ls = ([], false).
Proof.
  induction ls as [|x ls IH]; intros H; simpl; [done|].
  rewrite (H x) by (apply elem_of_cons; by left).
  apply IH. intros l Hl. apply H, elem_of_cons. by right.
Qed.

(** X7: the block the scan extracts is made of lines of the buffer, in
    the order they had there and none twice; no line of it holds the
    anchor text; and a scan that meets no anchor extracts nothing. *)
Theorem scan_takes_lines_in_order (b : bool) (bc : Z) (ls : list string) :
  (scan_loop b bc ls).1 `sublist_of` ls /\
  (forall l, l ∈ (scan_loop b bc ls).1 ->
             contains inner_anchor l = false /\ contains anchor l = false) /\
  ((forall l, l ∈ ls -> contains inner_anchor l = false) ->
   scan_loop false bc ls = ([], false)).
Proof.
  split_and!.
  - apply scan_loop_sublist.
  - intros l Hl. split.
    + by apply scan_loop_non_anchor in Hl.
    + by apply scan_loop_no_anchor in Hl.
  - apply scan_loop_idle.
Qed.

Lemma scan_takes_lines_in_order_witness :
  scan_loop false 0 (take 2 Samples.mixed) = ([], false).
Proof.
  apply (scan_takes_lines_in_order false 0 (take 2 Samples.mixed)).
  intros l Hl. vm_compute in Hl.
  repeat (apply elem_of_cons in Hl as [->|Hl]; [reflexivity|]).
  by apply elem_of_nil in Hl.
Defined.

Lemma startswith_char (c x : ascii) (s1 s2 : string) :
  startswith (String c "") (String x s1)
  = startswith (String c "") (String x s2).
Proof.
  unfold startswith. cbn [String.prefix].
  destruct (ascii_dec c x); [|done]. by destruct s1, s2.
Qed.

(** A one-character pattern is counted part by part. *)
Lemma count_char_app (c : ascii) (a b : string) :
  count (String c "") (a +:+ b)
  = (count (String c "") a + count (String c "") b)%Z.
Proof.
  unfold count. induction a as [|x a IH]; [done|].
  rewrite append_cons. cbn [count_go].
  rewrite (startswith_char c x (a +:+ b) a).
  change (String.length (String c "") - 1)%nat with 0%nat.
  destruct (startswith (String c "") (String x a)); rewrite IH; lia.
Qed.

(** X8: in a block that the scan closes, and that holds no line with
    the anchor text, the delimiters balance with the counter the scan
    started from: counted from 1, the block has one close delimiter more
    than it has open delimiters. *)
Theorem closed_block_is_balanced (ls blk : list string) (bc : Z) :
  (forall l, l ∈ ls -> contains inner_anchor l = false) ->
  scan_loop true bc ls = (blk, true) ->
  count "}" (writelines blk) = (bc + count "{" (writelines blk))%Z.
Proof.
  revert bc blk.
  induction ls as [|l ls IH]; intros bc blk Hls; cbn [scan_loop]; [done|].
  rewrite (Hls l) by (apply elem_of_cons; by left).
  assert (Hls' : forall x, x ∈ ls -> contains inner_anchor x = false).
  { intros x Hx. apply Hls, elem_of_cons. by right. }
  pose proof (after_line_net bc l) as Hnet.
  destruct (Z.eqb_spec (after_line bc l) 0) as [Hz|Hz].
  - intros [= <-]. cbn [writelines]. rewrite append_nil_r. lia.
  - destruct (scan_loop true (after_line bc l) ls) as [r1 r2] eqn:Hr.
    cbn [fst snd]. intros [= <- ->]. cbn [writelines].
    rewrite !count_char_app. specialize (IH _ _ Hls' Hr). lia.
Qed.

Lemma closed_block_is_balanced_witness :
  count "}" (writelines (take 2 (drop 3 MoreSamples.commented)))
  = (1 + count "{" (writelines (take 2 (drop 3 MoreSamples.commented))))%Z.
Proof.
  apply (closed_block_is_balanced (drop 3 MoreSamples.commented)
           (take 2 (drop 3 MoreSamples.commented)) 1); [|reflexivity].
  intros l Hl. vm_compute in Hl.
  repeat (apply elem_of_cons in Hl as [->|Hl]; [reflexivity|]).
  by apply elem_of_nil in Hl.
Defined.

(** *** The file after the relocation *)

Lemma found_in_range (needle : string) (lines : list string) (i : nat) :
  find_line needle lines = Some i -> (i < length lines)%nat.
Proof.
  intros (l & Hl & _)%find_line_Some. by apply lookup_lt_Some in Hl.
Qed.

(** X9: the relocation leaves the head of the file alone: the lines up
    to the export are written as they were, the export is found again at
    the index it had, and the blank line and the comment of the new
    declaration come right after it. *)
Theorem export_stays_in_place (lines : list string) (e ts : nat) :
  find_line anchor lines = Some ts ->
  find_line export_marker lines = Some e ->
  (0 < e < ts)%nat ->
  exists out,
    fix_templates lines = Written out ["Fixed templates structure"] /\
    take (S e) out = take (S e) lines /\
    find_line export_marker out = Some e /\
    out !! S e = Some nl /\
    out !! S (S e)
    = Some ("// Export templates for use in other modules" +:+ nl).
Proof.
  intros Hts He Hlt. eexists. split; [by apply fix_templates_found|].
  assert (Hlen : S e = length (take (S e) lines)).
  { apply found_in_range in He. rewrite length_take. lia. }
  unfold relocate.
  assert (Hclose : exists rest,
    close_file ((take (S e) lines ++ header)
                  ++ (scan_loop false 0 (drop ts lines)).1)
    = take (S e) lines
        ++ nl :: ("// Export templates for use in other modules" +:+ nl)
        :: rest).
  { rewrite <- app_assoc. rewrite close_file_app by done.
    destruct (scan_loop false 0 (drop ts lines)).1 as [|x blk _]
      using rev_ind.
    - eexists. reflexivity.
    - rewrite app_assoc, close_file_snoc. eexists. reflexivity. }
  destruct Hclose as (rest & ->). rewrite <- !app_assoc.
  split_and!.
  - by apply take_app_length'.
  - apply find_line_app_l, find_line_take; [done|lia].
  - rewrite lookup_app_r by lia.
    by replace (S e - length (take (S e) lines))%nat with 0%nat by lia.
  - rewrite lookup_app_r by lia.
    by replace (S (S e) - length (take (S e) lines))%nat with 1%nat by lia.
Qed.

Lemma export_stays_in_place_witness :
  exists out,
    fix_templates Samples.mixed = Written out ["Fixed templates structure"] /\
    take 2 out = take 2 Samples.mixed /\
    find_line export_marker out = Some 1%nat /\
    out !! 2%nat = Some nl /\
    out !! 3%nat
    = Some ("// Export templates for use in other modules" +:+ nl).
Proof.
  apply (export_stays_in_place Samples.mixed 1 3);
    [reflexivity | reflexivity | lia].
Defined.

Lemma collect_elem_of (pred : string -> bool) (ls : list string) (l : string) :
  l ∈ collect pred ls -> l ∈ ls /\ pred l = true.
Proof.
  induction ls as [|x ls IH]; simpl.
  - intros H. by apply elem_of_nil in H.
  - destruct (pred x) eqn:Hx.
    + intros [->|H]%elem_of_cons.
      * split; [|done]. apply elem_of_cons. by left.
      * destruct (IH H). split; [|done]. apply elem_of_cons. by right.
    + intros H. destruct (IH H). split; [|done]. apply elem_of_cons. by right.
Qed.

(** The terminator cannot complete the anchor text. *)
Lemma closed_line_no_anchor (l : string) :
  contains anchor l = false ->
  contains anchor (rstrip l +:+ ";" +:+ nl) = false.
Proof.
  intros Hl. destruct (contains anchor (rstrip l +:+ ";" +:+ nl)) eqn:H;
    [|done].
  apply contains_app_inv in H; [|done|].
  - apply contains_rstrip in H. congruence.
  - intros c Hc. destruct (char_in c (";" +:+ nl)) eqn:Hb; [|done].
    change (char_in c (";" +:+ nl))
      with (Ascii.eqb c ";" || (Ascii.eqb c "010" || false)) in Hb.
    rewrite orb_false_r in Hb.
    apply orb_true_iff in Hb as [->%Ascii.eqb_eq | ->%Ascii.eqb_eq];
      by vm_compute in Hc.
Qed.

Lemma close_file_no_anchor (ls : list string) :
  (forall l, l ∈ ls -> contains anchor l = false) ->
  forall l, l ∈ close_file ls -> contains anchor l = false.
Proof.
  destruct ls as [|x ls _] using rev_ind; [done|]. intros H l.
  rewrite close_file_snoc. intros [Hl|Hl]%elem_of_app.
  - apply H, elem_of_app. by left.
  - apply list_elem_of_singleton in Hl as ->.
    assert (Hx : contains anchor x = false).
    { apply H, elem_of_app. right. by apply list_elem_of_singleton. }
    destruct (endswith (";" +:+ nl) x); [done|].
    by apply closed_line_no_anchor.
Qed.

(** X10: a second run of fix-templates.py finds nothing to do.  When no
    line kept by the test of line 61 holds the anchor text, the file the
    first run wrote holds it nowhere, and the second run prints that it
    could not find the templates and leaves the file. *)
Theorem second_run_finds_no_anchor (lines : list string) (e ts : nat) :
  find_line anchor lines = Some ts ->
  find_line export_marker lines = Some e ->
  (0 < e < ts)%nat ->
  (forall l, l ∈ drop (S e) lines -> FixTemplates.tail_pred l = true ->
             contains anchor l = false) ->
  exists out,
    fix_templates lines = Written out ["Fixed templates structure"] /\
    find_line anchor out = None /\
    fix_templates out = Untouched ["Could not find templates definition"].
Proof.
  intros Hts He Hlt Htail. eexists. split; [by apply fix_templates_found|].
  assert (Hnone : find_line anchor (relocate lines e ts) = None).
  { apply find_line_None. intros l. rewrite relocate_parts.
    intros [Hl|[Hl|Hl]%elem_of_app]%elem_of_app.
    - apply find_line_Some in Hts as (_ & _ & _ & Hbefore). apply Hbefore.
      apply elem_of_take in Hl as (i & Hi & Hlt'). apply elem_of_take.
      exists i. split; [done|lia].
    - revert l Hl. apply close_file_no_anchor.
      intros l [Hl|Hl]%elem_of_app.
      + vm_compute in Hl.
        repeat (apply elem_of_cons in Hl as [->|Hl]; [reflexivity|]).
        by apply elem_of_nil in Hl.
      + by apply scan_loop_no_anchor in Hl.
    - apply collect_elem_of in Hl as [Hl Hp]. by apply Htail. }
  split; [done|]. unfold fix_templates. by rewrite Hnone.
Qed.

Lemma second_run_finds_no_anchor_witness :
  exists out,
    fix_templates Samples.mixed = Written out ["Fixed templates structure"] /\
    find_line anchor out = None /\
    fix_templates out = Untouched ["Could not find templates definition"].
Proof.
  apply (second_run_finds_no_anchor Samples.mixed 1 3);
    [reflexivity | reflexivity | lia |].
  intros l Hl Hp. vm_compute in Hl.
  repeat (apply elem_of_cons in Hl as [->|Hl];
          [first [reflexivity | by vm_compute in Hp]|]).
  by apply elem_of_nil in Hl.
Defined.

(** X11: the script rewrites the file exactly when the first line with
    the anchor comes after the first line with the export and the export
    is not the first line of the file: an index of 0 counts as no index.
    What it then writes is the relocation at these two indexes. *)
Theorem writes_when_anchor_follows_export (lines out printed : list string) :
  fix_templates lines = Written out printed <->
  exists e ts,
    find_line anchor lines = Some ts /\
    find_line export_marker lines = Some e /\
    (0 < e < ts)%nat /\
    out = relocate lines e ts /\
    printed = ["Fixed templates structure"].
Proof.
  split.
  - unfold fix_templates.
    destruct (find_line anchor lines) as [[|ts]|] eqn:Hts; [done| |done].
    destruct (find_line export_marker lines) as [[|e]|] eqn:He; [done| |done].
    cbn [truthy default from_option andb id].
    destruct (Nat.ltb_spec (S e) (S ts)); [|done].
    intros [= <- <-]. exists (S e), (S ts). split_and!; [done..|lia|lia|done|done].
  - intros (e & ts & Hts & He & Hlt & -> & ->). by apply fix_templates_found.
Qed.

End TemplatesLaws.

(** ** fix-nubi-final.py: run after run *)

Module NubiFinalLaws.

Import FixNubiFinal.

Lemma collect_app (pred : string -> bool) (l1 l2 : list string) :
  collect pred (l1 ++ l2) = collect pred l1 ++ collect pred l2.
Proof.
  induction l1 as [|x l1 IH]; simpl; [done|].
  destruct (pred x); simpl; by rewrite IH.
Qed.

Lemma collect_idemp (pred : string -> bool) (ls : list string) :
  collect pred (collect pred ls) = collect pred ls.
Proof.
  induction ls as [|x ls IH]; simpl; [done|].
  destruct (pred x) eqn:Hx; simpl; [|done]. by rewrite Hx, IH.
Qed.

(** What the script writes when the export is at index [S e]. *)
Lemma clean_up_layout (l0 : string) (rest : list string) (e : nat) :
  clean_up (l0 :: rest) (S e)
  = l0 :: import_line
      :: take (S e) rest ++ [nl] ++ footer
           ++ collect tail_pred (drop (S e) rest).
Proof.
  unfold clean_up, py_insert. cbn [take drop app].
  rewrite take_0, drop_0. cbn [app]. by rewrite <- !app_assoc.
Qed.

(** The script run on the lines it wrote, taken as they are. *)
Lemma rerun_on_written_lines (lines : list string) (e : nat) :
  find_line export_marker lines = Some e ->
  (0 < e)%nat ->
  fix_nubi_final lines
  = Written (clean_up lines e) ["Cleaned up nubi-character.ts"] /\
  clean_up lines e !! 1%nat = Some import_line /\
  find_line export_marker (clean_up lines e) = Some (S e) /\
  fix_nubi_final (clean_up lines e)
  = Written (py_insert 1 import_line (clean_up lines e))
            ["Cleaned up nubi-character.ts"] /\
  length (py_insert 1 import_line (clean_up lines e))
  = S (length (clean_up lines e)).
Proof.
  intros He H0. destruct e as [|e]; [lia|].
  destruct lines as [|l0 rest]; [done|]. cbn [find_line] in He.
  destruct (contains export_marker l0) eqn:Hl0; [done|].
  destruct (find_line export_marker rest) as [j|] eqn:Hj; [|done].
  injection He as ->.
  assert (Hlen : S e = length (take (S e) rest)).
  { apply TemplatesLaws.found_in_range in Hj. rewrite length_take. lia. }
  assert (Hout : find_line export_marker
                   (l0 :: import_line
                      :: take (S e) rest ++ [nl] ++ footer
                           ++ collect tail_pred (drop (S e) rest))
                 = Some (S (S e))).
  { cbn [find_line]. rewrite Hl0.
    change (contains export_marker import_line) with false. cbn iota.
    rewrite (find_line_app_l _ _ _ e); [done|].
    apply find_line_take; [done|lia]. }
  unfold fix_nubi_final at 1. cbn [find_line]. rewrite Hl0, Hj.
  split; [done|]. rewrite clean_up_layout. split; [done|].
  split; [done|]. split.
  - unfold fix_nubi_final. rewrite Hout. cbn [truthy default from_option id].
    f_equal. rewrite clean_up_layout.
    cbn [take drop]. rewrite (take_app_length' _ _ _ Hlen).
    rewrite (drop_app_length' _ _ _ Hlen).
    rewrite !collect_app, collect_idemp.
    change (collect tail_pred [nl]) with (@nil string).
    change (collect tail_pred footer) with (@nil string).
    unfold py_insert. by cbn [take drop app].
  - unfold py_insert. by cbn [take drop app length].
Qed.

(** What the script writes can be read back as it is, provided the
    export line read from the file ends with a newline. *)
Lemma clean_up_lines_ok (lines : list string) (e : nat) (l : string) :
  lines_ok lines = true ->
  (forall x, x ∈ lines -> char_in "013" x = false) ->
  (0 < e)%nat ->
  lines !! e = Some l -> endswith nl l = true ->
  lines_ok (clean_up lines e) = true /\
  forall x, x ∈ clean_up lines e -> char_in "013" x = false.
Proof.
  intros Hok Hcr H0 Hl He. destruct e as [|e]; [lia|].
  destruct lines as [|l0 rest]; [done|]. rewrite clean_up_layout.
  assert (Hrest : lines_ok rest = true).
  { by apply lines_ok_cons in Hok as (_ & ? & _). }
  assert (Hhead : forall x, x ∈ l0 :: take (S e) rest ->
                            is_line x = true /\ endswith nl x = true).
  { intros x Hx.
    change (l0 :: take (S e) rest) with (take (S (S e)) (l0 :: rest)) in Hx.
    apply elem_of_take in Hx as (i & Hi & Hlt).
    destruct (lines_ok_lookup _ _ _ Hok Hi) as [H1 H2]. split; [done|].
    destruct (decide (i = S e)) as [->|Hne].
    - rewrite Hl in Hi. by injection Hi as <-.
    - apply H2. apply lookup_lt_Some in Hl. lia. }
  split.
  - change (l0 :: import_line
              :: take (S e) rest ++ [nl] ++ footer
                   ++ collect tail_pred (drop (S e) rest))
      with ([l0; import_line]
              ++ take (S e) rest ++ ([nl] ++ footer)
                   ++ collect tail_pred (drop (S e) rest)).
    rewrite !app_assoc. apply lines_ok_app.
    + intros x [[[Hx|Hx]%elem_of_app|Hx]%elem_of_app|Hx]%elem_of_app.
      * apply elem_of_cons in Hx as [->|Hx].
        { apply Hhead, elem_of_cons. by left. }
        apply list_elem_of_singleton in Hx as ->. by vm_compute.
      * apply Hhead, elem_of_cons. by right.
      * apply list_elem_of_singleton in Hx as ->. by vm_compute.
      * vm_compute in Hx.
        repeat (apply elem_of_cons in Hx as [->|Hx]; [by vm_compute|]).
        by apply elem_of_nil in Hx.
    + apply (lines_ok_sublist _ rest); [|done].
      etrans; [apply TailFacts.collect_sublist|apply sublist_drop].
  - intros x Hx.
    assert (Hin : x ∈ l0 :: rest \/ x ∈ import_line :: nl :: footer).
    { apply elem_of_cons in Hx as [->|Hx]; [left; apply elem_of_cons; by left|].
      apply elem_of_cons in Hx as [->|Hx]; [right; apply elem_of_cons; by left|].
      apply elem_of_app in Hx as [Hx|Hx].
      { left. apply elem_of_cons. right.
        by apply (elem_of_sublist _ _ _ Hx), sublist_take. }
      apply elem_of_app in Hx as [Hx|Hx].
      { right. apply elem_of_cons. right. apply elem_of_cons. left.
        by apply list_elem_of_singleton in Hx. }
      apply elem_of_app in Hx as [Hx|Hx].
      { right. apply elem_of_cons. right. apply elem_of_cons. by right. }
      left. apply elem_of_cons. right.
      apply (elem_of_sublist _ _ _ Hx).
      etrans; [apply TailFacts.collect_sublist|apply sublist_drop]. }
    destruct Hin as [Hin|Hin]; [by apply Hcr|].
    vm_compute in Hin.
    repeat (apply elem_of_cons in Hin as [->|Hin]; [reflexivity|]).
    by apply elem_of_nil in Hin.
Qed.

(** X12: fix-nubi-final.py is never done.  Whenever it rewrites a file
    whose export line ends with a newline, the import line is the second
    line of what it wrote and the export is found one line further down
    than before; the file it wrote is read back as the lines it wrote,
    and the script run on that file rewrites it again, as the same lines
    with the import line inserted once more. *)
Theorem every_run_inserts_the_import (file : string) (e : nat) (l : string) :
  find_line export_marker (readlines file) = Some e ->
  (0 < e)%nat ->
  readlines file !! e = Some l ->
  endswith nl l = true ->
  exists out,
    run file = (writelines out, ["Cleaned up nubi-character.ts"]) /\
    out !! 1%nat = Some import_line /\
    find_line export_marker out = Some (S e) /\
    readlines (writelines out) = out /\
    run (writelines out)
    = (writelines (py_insert 1 import_line out),
       ["Cleaned up nubi-character.ts"]) /\
    length (py_insert 1 import_line out) = S (length out).
Proof.
  intros He H0 Hl Hnl.
  destruct (rerun_on_written_lines _ _ He H0) as (H1 & H2 & H3 & H4 & H5).
  destruct (clean_up_lines_ok (readlines file) e l) as [Hok Hcr];
    [apply split_lines_ok | intros x; apply readlines_no_cr | done..|].
  assert (Hback : readlines (writelines (clean_up (readlines file) e))
                  = clean_up (readlines file) e)
    by by apply readlines_writelines.
  exists (clean_up (readlines file) e). split_and!; [|done..| |done].
  - unfold run. by rewrite H1.
  - unfold run. by rewrite Hback, H4.
Qed.

Lemma every_run_inserts_the_import_witness :
  exists out,
    run MoreSamples.mixed_file
    = (writelines out, ["Cleaned up nubi-character.ts"]) /\
    out !! 1%nat = Some import_line /\
    find_line export_marker out = Some 2%nat /\
    readlines (writelines out) = out /\
    run (writelines out)
    = (writelines (py_insert 1 import_line out),
       ["Cleaned up nubi-character.ts"]) /\
    length (py_insert 1 import_line out) = S (length out).
Proof.
  apply (every_run_inserts_the_import MoreSamples.mixed_file 1
           ("export default nubiCharacter;" +:+ nl));
    [reflexivity | lia | reflexivity | reflexivity].
Defined.

End NubiFinalLaws.

(** ** Substitution scripts on files they do not apply to *)

Module SubstituteLaws.

Import FixRaidSystem.

Lemma strip_prefix_startswith (p s r : string) :
  strip_prefix p s = Some r -> startswith p s = true.
Proof.
  revert s. induction p as [|a p IH]; intros s; [by destruct s|].
  destruct s as [|b s]; [done|]. cbn [strip_prefix].
  destruct (Ascii.eqb a b) eqn:Hab; [|done].
  apply Ascii.eqb_eq in Hab as ->. intros H.
  apply startswith_cons. split; [done|]. by apply IH.
Qed.

Lemma strip_prefix_absent (p s : string) :
  startswith p s = false -> strip_prefix p s = None.
Proof.
  intros H. destruct (strip_prefix p s) as [r|] eqn:Hr; [|done].
  apply strip_prefix_startswith in Hr. congruence.
Qed.

Lemma sub_create_memory_absent (s : string) :
  contains ".createMemory(" s = false -> sub_create_memory 0 s = s.
Proof.
  induction s as [|c s IH]; [done|].
  rewrite contains_unfold. intros [H1 H2]%orb_false_iff.
  cbn [sub_create_memory]. unfold match_create_memory.
  rewrite (strip_prefix_absent _ _ H1). simpl. by rewrite IH.
Qed.

Lemma sub_content_absent (s : string) :
  contains ".createMemory(" s = false -> ComprehensiveFix.sub_content 0 s = s.
Proof.
  induction s as [|c s IH]; [done|].
  rewrite contains_unfold. intros [H1 H2]%orb_false_iff.
  cbn [ComprehensiveFix.sub_content]. unfold ComprehensiveFix.match_content.
  rewrite (strip_prefix_absent _ _ H1). simpl. by rewrite IH.
Qed.

(** X13: fix-raid-system.py writes back what it read, character for
    character, when that content holds none of the texts the script
    looks for: the seven texts of its substitutions and the call that
    its pattern starts with.  What it read is the file with its newlines
    translated, so that the file itself comes back unchanged when it
    holds no carriage return. *)
Theorem raid_file_without_patterns (file : string) :
  contains "quote: number;" (read file) = false ->
  contains ("            quote: 3," +:+ nl +:+ "        },") (read file)
  = false ->
  contains ".raw(" (read file) = false ->
  contains ".createMemory(" (read file) = false ->
  contains ".userId" (read file) = false ->
  contains (dq +:+ "user" +:+ dq +:+ ":") (read file) = false ->
  contains "const text = message.content?.text;" (read file) = false ->
  contains "if (text.toLowerCase()" (read file) = false ->
  run file = (read file, ["Fixed nubi-raid-system.ts compilation errors"]) /\
  (char_in "013" file = false ->
   run file = (file, ["Fixed nubi-raid-system.ts compilation errors"])).
Proof.
  intros H1 H2 H3 H4 H5 H6 H7 H8.
  assert (Hrun : run file
                 = (read file,
                    ["Fixed nubi-raid-system.ts compilation errors"])).
  { unfold run, patch. f_equal.
    rewrite (replace_absent _ _ _ H1), (replace_absent _ _ _ H2),
      (replace_absent _ _ _ H3), (sub_create_memory_absent _ H4),
      (replace_absent _ _ _ H5), (replace_absent _ _ _ H6),
      (replace_absent _ _ _ H7).
    by apply replace_absent. }
  split; [done|]. intros Hcr. by rewrite Hrun, read_without_cr.
Qed.

Lemma raid_file_without_patterns_witness :
  run "const x = 1;"
  = ("const x = 1;", ["Fixed nubi-raid-system.ts compilation errors"]) /\
  run MoreSamples.crlf_file
  = ("const x = 1;" +:+ nl, ["Fixed nubi-raid-system.ts compilation errors"]).
Proof.
  split.
  - apply (raid_file_without_patterns "const x = 1;"); reflexivity.
  - apply (raid_file_without_patterns MoreSamples.crlf_file); reflexivity.
Defined.

(** X14: the same holds for the section of comprehensive-fix.py on that
    file, with the texts it looks for: it writes back what it read, and
    so the file itself when the file holds no carriage return. *)
Theorem raid_section_without_patterns (file : string) :
  contains (ComprehensiveFix.share_quote +:+ "        },") (read file)
  = false ->
  contains "if (text.toLowerCase()" (read file) = false ->
  contains (".user?.id || " +:+ dq +:+ dq) (read file) = false ->
  contains (dq +:+ "userId" +:+ dq +:+ ":") (read file) = false ->
  contains ".createMemory(" (read file) = false ->
  ComprehensiveFix.run_raid file
  = (read file, ["Fixing nubi-raid-system.ts..."]) /\
  (char_in "013" file = false ->
   ComprehensiveFix.run_raid file
   = (file, ["Fixing nubi-raid-system.ts..."])).
Proof.
  intros H1 H2 H3 H4 H5.
  assert (Hrun : ComprehensiveFix.run_raid file
                 = (read file, ["Fixing nubi-raid-system.ts..."])).
  { unfold ComprehensiveFix.run_raid, ComprehensiveFix.patch_raid. f_equal.
    rewrite (replace_absent _ _ _ H1), (replace_absent _ _ _ H2),
      (replace_absent _ _ _ H3), (replace_absent _ _ _ H4).
    by apply sub_content_absent. }
  split; [done|]. intros Hcr. by rewrite Hrun, read_without_cr.
Qed.

Lemma raid_section_without_patterns_witness :
  ComprehensiveFix.run_raid "const x = 1;"
  = ("const x = 1;", ["Fixing nubi-raid-system.ts..."]) /\
  ComprehensiveFix.run_raid MoreSamples.crlf_file
  = ("const x = 1;" +:+ nl, ["Fixing nubi-raid-system.ts..."]).
Proof.
  split.
  - apply (raid_section_without_patterns "const x = 1;"); reflexivity.
  - apply (raid_section_without_patterns MoreSamples.crlf_file); reflexivity.
Defined.

(** *** Guarded insertions *)

(** X15: the declaration of [io] is added at most once.  After the step
    of comprehensive-fix.py a file that holds the class line holds the
    declaration, and the step applied again changes nothing. *)
Theorem io_declaration_added_once (content : string) :
  (contains Analytics.class_line content = true ->
   contains "private io:" (Analytics.add_io content) = true) /\
  Analytics.add_io (Analytics.add_io content) = Analytics.add_io content.
Proof.
  assert (Hnew : contains Analytics.class_line content = true ->
                 contains "private io:" content = false ->
                 contains "private io:"
                   (replace Analytics.class_line
                      (Analytics.class_line +:+ nl
                         +:+ "    private io: any = null;") content) = true).
  { intros Hc _. by apply contains_replace_new. }
  unfold Analytics.add_io. split.
  - intros Hc. destruct (contains "private io:" content) eqn:Hio; [done|].
    by apply Hnew.
  - destruct (contains "private io:" content) eqn:Hio; cbn [negb].
    + by rewrite Hio.
    + destruct (contains Analytics.class_line content) eqn:Hc.
      * by rewrite (Hnew eq_refl eq_refl).
      * rewrite (replace_absent _ _ _ Hc), Hio. cbn [negb].
        by rewrite (replace_absent _ _ _ Hc).
Qed.

Lemma io_declaration_added_once_witness :
  contains "private io:" (Analytics.add_io (Analytics.class_line +:+ nl))
  = true.
Proof.
  apply (io_declaration_added_once (Analytics.class_line +:+ nl)).
  reflexivity.
Defined.

Lemma str_take_drop (n : nat) (s : string) :
  str_take n s +:+ str_drop n s = s.
Proof.
  revert s. induction n as [|n IH]; intros s; [by destruct s|].
  destruct s as [|c s]; [done|]. cbn [str_take str_drop].
  by rewrite append_cons, IH.
Qed.

Lemma rfind_startswith (sub s : string) (i : nat) :
  rfind sub s = Some i -> startswith sub (str_drop i s) = true.
Proof.
  revert i. induction s as [|c s IH]; intros i; cbn [rfind].
  - destruct (startswith sub "") eqn:H; [|done]. by intros [= <-].
  - destruct (rfind sub s) as [j|].
    + intros [= <-]. by apply IH.
    + destruct (startswith sub (String c s)) eqn:H; [|done].
      by intros [= <-].
Qed.

Lemma rfind_None (sub s : string) :
  rfind sub s = None -> contains sub s = false.
Proof.
  induction s as [|c s IH]; cbn [rfind]; rewrite contains_unfold.
  - destruct (startswith sub ""); [done|]. done.
  - destruct (rfind sub s) as [j|]; [done|].
    destruct (startswith sub (String c s)); [done|]. intros _.
    by rewrite IH.
Qed.

(** X16: the [stop] method is added at most once.  When
    fix-event-emitter.py adds it, it goes in front of a close delimiter
    that is not the first character of the file, and nothing of the file
    is lost; a file without close delimiter, or whose last close
    delimiter is its first character, is left alone; and the step
    applied again changes nothing. *)
Theorem stop_method_added_once (content : string) :
  (FixEventEmitter.add_stop content = content \/
   exists pre suf,
     content = pre +:+ suf /\ pre <> "" /\
     startswith "}" suf = true /\
     FixEventEmitter.add_stop content
     = pre +:+ FixEventEmitter.stop_method +:+ suf) /\
  (contains "}" content = false ->
   FixEventEmitter.add_stop content = content) /\
  (rfind "}" content = Some 0%nat ->
   FixEventEmitter.add_stop content = content) /\
  FixEventEmitter.add_stop (FixEventEmitter.add_stop content)
  = FixEventEmitter.add_stop content.
Proof.
  unfold FixEventEmitter.add_stop.
  destruct (contains "async stop()" content) eqn:Hstop; cbn [negb].
  { rewrite Hstop. cbn [negb]. repeat split; auto. }
  destruct (rfind "}" content) as [[|i]|] eqn:Hr.
  - rewrite Hstop, Hr. cbn [negb]. repeat split; auto.
  - assert (Hin : contains "async stop()"
                    (str_take (S i) content +:+ FixEventEmitter.stop_method
                       +:+ str_drop (S i) content) = true).
    { by apply contains_app_r, contains_app_l. }
    rewrite Hin. cbn [negb]. split_and!; [|intros Hc|done|done].
    + right. exists (str_take (S i) content), (str_drop (S i) content).
      split_and!; [by rewrite str_take_drop| |by apply rfind_startswith|done].
      destruct content; [done|]. done.
    + apply rfind_startswith in Hr. apply startswith_contains in Hr.
      assert (contains "}" content = true); [|congruence].
      rewrite <- (str_take_drop (S i) content). by apply contains_app_r.
  - rewrite Hstop, Hr. cbn [negb]. repeat split; auto.
Qed.

Lemma stop_method_added_once_witness :
  FixEventEmitter.add_stop "const x = 1;" = "const x = 1;".
Proof.
  destruct (stop_method_added_once "const x = 1;") as (_ & H & _).
  apply H. reflexivity.
Defined.

End SubstituteLaws.

(** ** comprehensive-fix.py: the three lines of error-handler.ts *)

Module ErrorHandlerLaws.

Import ComprehensiveFix.

(** A guard above the index decides the assignment. *)
Lemma guarded_assign_result (bound i : nat) (x : string) (lines : list string) :
  (i < bound)%nat ->
  guarded_assign bound i x lines
  = Some (if (bound <? length lines)%nat then <[i := x]> lines else lines).
Proof.
  intros Hi. unfold guarded_assign, setitem.
  destruct (Nat.ltb_spec bound (length lines)); [|done].
  by destruct (Nat.ltb_spec i (length lines)); [|lia].
Qed.

(** X17: the three guarded assignments never raise, whatever the number
    of lines.  They keep the number of lines and every line but the
    34th, the 37th and the 107th; a file of at most 34 lines comes back
    unchanged, and in a file of more than 107 lines the three lines are
    the new ones. *)
Theorem error_handler_lines_patched (lines : list string) :
  exists out,
    patch_error_handler lines = Some out /\
    length out = length lines /\
    (forall j, j <> 33%nat -> j <> 36%nat -> j <> 106%nat ->
               out !! j = lines !! j) /\
    ((length lines <= 34)%nat -> out = lines) /\
    ((107 < length lines)%nat ->
     out !! 33%nat = Some line34 /\
     out !! 36%nat = Some line37 /\
     out !! 106%nat = Some line107).
Proof.
  unfold patch_error_handler.
  rewrite (guarded_assign_result 34 33) by lia. cbn [mbind option_bind].
  rewrite (guarded_assign_result 37 36) by lia. cbn [mbind option_bind].
  rewrite (guarded_assign_result 107 106) by lia.
  eexists. split; [done|].
  destruct (Nat.ltb_spec 34 (length lines)); rewrite ?length_insert;
    destruct (Nat.ltb_spec 37 (length lines)); rewrite ?length_insert;
    destruct (Nat.ltb_spec 107 (length lines)); try lia;
    (split_and!;
     [ by rewrite ?length_insert
     | intros j ? ? ?; by rewrite ?list_lookup_insert_ne
     | intros ?; first [done | lia]
     | intros ?; try lia ]).
  split_and!.
  - rewrite !list_lookup_insert_ne by done.
    apply list_lookup_insert_eq. lia.
  - rewrite list_lookup_insert_ne by done.
    apply list_lookup_insert_eq. rewrite length_insert. lia.
  - apply list_lookup_insert_eq. rewrite !length_insert. lia.
Qed.

Lemma error_handler_lines_patched_witness :
  exists out,
    patch_error_handler ["a"; "b"; "c"] = Some out /\
    length out = 3%nat /\
    (forall j, j <> 33%nat -> j <> 36%nat -> j <> 106%nat ->
               out !! j = ["a"; "b"; "c"] !! j) /\
    out = ["a"; "b"; "c"].
Proof.
  destruct (error_handler_lines_patched ["a"; "b"; "c"])
    as (out & H1 & H2 & H3 & H4 & _).
  exists out. split_and!; [done..|]. apply H4. simpl. lia.
Defined.

End ErrorHandlerLaws.

(** ** fix-error-handler-final.py *)

Module ErrorHandlerFinalLaws.

Import FixErrorHandlerFinal.


Lemma loop_without_header (ls : list string) :
  (forall l, l ∈ ls -> contains method_header l = false) ->
  loop initial ls = ls.
Proof.
  induction ls as [|l ls IH]; intros H; [done|]. cbn [loop].
  rewrite (H l) by (apply elem_of_cons; by left).
  cbn [skip_lines in_log_error initial andb]. rewrite IH; [done|].
  intros x Hx. apply H, elem_of_cons. by right.
Qed.



(** X18: a file without the header of [logError] is written back line
    for line. *)
Theorem no_header_no_change (lines : list string) :
  (forall l, l ∈ lines -> contains method_header l = false) ->
  fix_error_handler lines = Written lines ["Fixed error-handler.ts"].
Proof.
  intros H. unfold fix_error_handler. by rewrite loop_without_header.
Qed.

Lemma no_header_no_change_witness :
  fix_error_handler Samples.block_last
  = Written Samples.block_last ["Fixed error-handler.ts"].
Proof.
  apply (no_header_no_change Samples.block_last).
  intros l Hl. vm_compute in Hl.
  repeat (apply elem_of_cons in Hl as [->|Hl]; [reflexivity|]).
  by apply elem_of_nil in Hl.
Defined.



End ErrorHandlerFinalLaws.

(** ** fix-pattern-order.py *)

Module PatternOrderLaws.

Import FixPatternOrder.

(** X20: the script changes one line at most, the first that holds the
    key text; it keeps the number of lines and every other line.  A file
    without the key text comes back unchanged, and so does a file whose
    first line with the key text does not hold the whole pattern, even
    when a later line does. *)
Theorem only_first_match_rewritten (lines : list string) :
  length (narrow_first lines) = length lines /\
  (find_line key lines = None -> narrow_first lines = lines) /\
  (forall i l,
     find_line key lines = Some i -> lines !! i = Some l ->
     narrow_first lines = <[i := replace broad specific l]> lines /\
     (contains broad l = false -> narrow_first lines = lines)).
Proof.
  induction lines as [|x lines (IH1 & IH2 & IH3)]; [done|].
  cbn [narrow_first find_line].
  destruct (contains key x) eqn:Hx.
  - split_and!; [done|done|]. intros i l [= <-] [= <-]. split; [done|].
    intros Hb. by rewrite (replace_absent _ _ _ Hb).
  - split_and!.
    + cbn [length]. by rewrite IH1.
    + destruct (find_line key lines); [done|]. intros _. by rewrite IH2.
    + intros i l. destruct (find_line key lines) as [j|]; [|done].
      intros [= <-] Hl. cbn [lookup list_lookup] in Hl.
      destruct (IH3 j l eq_refl Hl) as [H1 H2]. split.
      * by rewrite H1.
      * intros Hb. by rewrite (H2 Hb).
Qed.

Lemma only_first_match_rewritten_witness :
  narrow_first ["a"; "x = " +:+ key; "y = " +:+ broad]
  = ["a"; "x = " +:+ key; "y = " +:+ broad].
Proof.
  destruct (only_first_match_rewritten
              ["a"; "x = " +:+ key; "y = " +:+ broad]) as (_ & _ & H).
  apply (H 1%nat ("x = " +:+ key)); reflexivity.
Defined.

End PatternOrderLaws.

(** ** Substitutions that feed themselves *)

Module GrowthLaws.

(** A substitution never shortens a text when its replacement is at
    least as long as its pattern, and lengthens it when the replacement
    is longer and the pattern occurs. *)
Lemma replace_go_grows (old new s : string) :
  old <> "" ->
  (String.length old < String.length new)%nat ->
  (String.length s <= String.length (replace_go old new 0 s))%nat /\
  (contains old s = true ->
   (String.length s < String.length (replace_go old new 0 s))%nat).
Proof.
  intros Hold Hlen. destruct old as [|a old]; [done|]. revert s.
  apply (occurrence_ind (String a old)); [done| | |done].
  - intros t [IH _]. rewrite replace_go_match, !append_length. lia.
  - intros c t Hs [IH1 IH2]. cbn [replace_go]. rewrite Hs.
    rewrite contains_unfold, Hs. cbn [String.length orb]. split; [lia|].
    intros Hc. specialize (IH2 Hc). lia.
Qed.

Lemma self_feeding (old new s : string) :
  old <> "" ->
  (String.length old < String.length new)%nat ->
  contains old new = true ->
  contains old s = true ->
  contains old (replace old new s) = true /\
  (String.length s < String.length (replace old new s))%nat.
Proof.
  intros Hold Hlen Hnew Hs. split.
  - by apply contains_replace_new.
  - destruct old as [|a old]; [done|]. by apply replace_go_grows.
Qed.

(** X21: three substitutions put back the text they look for, so that
    they apply again to what they wrote and make the file longer on
    every run: the port setting wrapped in [parseInt] by
    comprehensive-fix.py, the default added to [getSetting] by
    fix-event-emitter.py, and the cast added after [+ 1] by
    fix-remaining-issues.py. *)
Theorem self_feeding_substitutions_grow (content : string) :
  (contains Analytics.port_setting content = true ->
   contains Analytics.port_setting (Analytics.fix_port content) = true /\
   (String.length content
    < String.length (Analytics.fix_port content))%nat) /\
  (contains FixEventEmitter.get_setting content = true ->
   contains FixEventEmitter.get_setting (FixEventEmitter.fix_port content)
   = true /\
   (String.length content
    < String.length (FixEventEmitter.fix_port content))%nat) /\
  (contains "+ 1" content = true ->
   contains "+ 1" (FixRemainingIssues.patch_repository content) = true /\
   (String.length content
    < String.length (FixRemainingIssues.patch_repository content))%nat).
Proof.
  split_and!; intros H.
  - apply self_feeding; [done|vm_compute; lia|reflexivity|done].
  - apply self_feeding; [done|vm_compute; lia|reflexivity|done].
  - unfold FixRemainingIssues.patch_repository. rewrite replace_self.
    apply self_feeding; [done|vm_compute; lia|reflexivity|done].
Qed.

Lemma self_feeding_substitutions_grow_witness :
  contains "+ 1" (FixRemainingIssues.patch_repository "count + 1") = true /\
  (String.length "count + 1"
   < String.length (FixRemainingIssues.patch_repository "count + 1"))%nat.
Proof.
  apply (self_feeding_substitutions_grow "count + 1"). reflexivity.
Defined.

Lemma endswith_refl (s : string) : endswith s s = true.
Proof. destruct s; cbn [endswith]; by rewrite String.eqb_refl. Qed.

Lemma endswith_app (a suf : string) : endswith suf (a +:+ suf) = true.
Proof.
  induction a as [|c a IH]; [apply endswith_refl|].
  rewrite append_cons. by apply endswith_cons.
Qed.

(** X22: the declaration that fix-templates.py writes is never empty and
    always ends with a terminator and a newline, whatever the block. *)
Theorem declaration_is_terminated (lines : list string) (ts : nat) :
  exists l,
    last (FixTemplates.declaration lines ts) = Some l /\
    endswith (";" +:+ nl) l = true /\
    (3 <= length (FixTemplates.declaration lines ts))%nat.
Proof.
  unfold FixTemplates.declaration.
  destruct (FixTemplates.scan_loop false 0 (drop ts lines)).1
    as [|x blk _] using rev_ind.
  - eexists. split_and!; [reflexivity|reflexivity|simpl; lia].
  - rewrite app_assoc, TemplatesFacts.close_file_snoc, last_snoc.
    eexists. split; [done|]. split.
    + destruct (endswith (";" +:+ nl) x) eqn:Hx; [done|].
      apply endswith_app.
    + rewrite !length_app. simpl. lia.
Qed.

End GrowthLaws.
